(** * simple_blockchain.py: a shallow embedding and its verified properties

    The development follows [code-examples/python/simple_blockchain.py]:
    the classes [Block], [Transaction] and [Blockchain] become modules of the
    same names, every method a function of the same name.

    Modelling conventions.
    - Python [str] values are [string]s (code points below 256); [None] is
      the [None] of an [option].
    - Numbers (amounts, timestamps, indices, nonces, the difficulty) are
      integers, [Z].  Every amount the source writes is an integer literal;
      the readings of [time.time()] are taken as integer clock ticks and
      are passed to the functions that read the clock, as explicit arguments.
    - [hashlib.sha256(..).hexdigest()] is a member of the class [Hashlib]:
      the theorems hold for any digest; [Sha256] is the digest of the
      standard, with which the module [Demo] runs the program.
    - [json.dumps(.., sort_keys=True)] is [Json.dumps_sorted], written after
      the encoder of the Python standard library.
    - Methods that mutate [self] are state transformers; an unbounded
      [while] loop gets a fuel argument and the outcome [Exhausted] when the
      fuel does not suffice.
    - [print] calls are not modelled, except for the diagnostic of
      [is_chain_valid], which [Blockchain.first_failure] returns. *)

From Stdlib Require Import ZArith Lia Ascii String DecimalString DecimalPos DecimalZ.
From stdpp Require Import base decidable option list strings.

Local Open Scope Z_scope.
Local Open Scope string_scope.
Local Open Scope list_scope.

(** ** Python strings *)

Module PyStr.

(** [s[:n]] for a natural [n]. *)
Fixpoint take (n : nat) (s : string) : string :=
  match n, s with
  | S n', String c s' => String c (take n' s')
  | _, _ => EmptyString
  end.

(** [s[:stop]]: a negative [stop] counts from the end of [s]. *)
Definition slice_to (s : string) (stop : Z) : string :=
  if (0 <=? stop)%Z then take (Z.to_nat stop) s
  else take (String.length s - Z.to_nat (- stop)) s.

(** [c * n] for a one-character string [c]; empty when [n <= 0]. *)
Fixpoint replicate (n : nat) (c : ascii) : string :=
  match n with
  | O => EmptyString
  | S n' => String c (replicate n' c)
  end.

Definition repeat (c : ascii) (n : Z) : string := replicate (Z.to_nat n) c.

(** [s.startswith(p)] *)
Definition startswith (s p : string) : bool := String.prefix p s.

(** The number of ['0'] characters [s] starts with. *)
Fixpoint leading_zeros (s : string) : nat :=
  match s with
  | String c s' => if Ascii.eqb c "0" then S (leading_zeros s') else O
  | EmptyString => O
  end.

End PyStr.

(** ** [json.dumps] *)

Module Json.

(** The values the program serialises. *)
#[local] Unset Elimination Schemes.
Inductive json : Type :=
| JNull
| JInt (n : Z)
| JStr (s : string)
| JList (items : list json)
| JDict (members : list (string * json)).
#[local] Set Elimination Schemes.

Definition chars (s : string) : list ascii := list_ascii_of_string s.

(** The quotation mark, code point 34. *)
Definition quote : ascii :=
  Ascii false true false false false true false false.

Definition hex_digit (n : nat) : ascii :=
  match n with
  | 0 => "0" | 1 => "1" | 2 => "2" | 3 => "3" | 4 => "4" | 5 => "5"
  | 6 => "6" | 7 => "7" | 8 => "8" | 9 => "9" | 10 => "a" | 11 => "b"
  | 12 => "c" | 13 => "d" | 14 => "e" | _ => "f"
  end%nat%char.

(** [ESCAPE_DCT] and the [\uXXXX] fallback of [py_encode_basestring_ascii]:
    everything outside [' '..'~'], the quote and the backslash is escaped. *)
Definition escape_char (c : ascii) : list ascii :=
  let n := nat_of_ascii c in
  if Ascii.eqb c "\" then chars "\\"
  else if Ascii.eqb c quote then ["\"%char; quote]
  else if (n =? 8)%nat then chars "\b"
  else if (n =? 12)%nat then chars "\f"
  else if (n =? 10)%nat then chars "\n"
  else if (n =? 13)%nat then chars "\r"
  else if (n =? 9)%nat then chars "\t"
  else if ((n <? 32) || (126 <? n))%nat
       then chars "\u00" ++ [hex_digit (n / 16); hex_digit (n mod 16)]
  else [c].

Fixpoint escape (s : string) : list ascii :=
  match s with
  | EmptyString => []
  | String c s' => escape_char c ++ escape s'
  end.

Definition encode_basestring_ascii (s : string) : list ascii :=
  [quote] ++ escape s ++ [quote].

(** [int.__repr__] *)
Definition encode_int (n : Z) : list ascii :=
  chars (NilEmpty.string_of_int (Z.to_int n)).

(** Items joined by the default item separator [", "]. *)
Fixpoint join_items (items : list (list ascii)) : list ascii :=
  match items with
  | [] => []
  | [x] => x
  | x :: rest => x ++ chars ", " ++ join_items rest
  end.

(** The encoder proper, with the default separators [", "] and [": "];
    members are written in the order they are given. *)
Fixpoint encode (j : json) : list ascii :=
  match j with
  | JNull => chars "null"
  | JInt n => encode_int n
  | JStr s => encode_basestring_ascii s
  | JList items => chars "[" ++ join_items (map encode items) ++ chars "]"
  | JDict members =>
      chars "{"
      ++ join_items
           (map (fun '(k, v) =>
                   encode_basestring_ascii k ++ chars ": " ++ encode v)
                members)
      ++ chars "}"
  end.

(** [sorted(dct.items())]: insertion by key, in code-point order. *)
Fixpoint insert_member (kv : string * json) (l : list (string * json))
  : list (string * json) :=
  match l with
  | [] => [kv]
  | kv' :: l' =>
      if String.leb (fst kv) (fst kv') then kv :: l
      else kv' :: insert_member kv l'
  end.

Definition sort_members (l : list (string * json)) : list (string * json) :=
  foldr insert_member [] l.

(** [sort_keys=True] reorders the members of every dictionary. *)
Fixpoint sort_keys (j : json) : json :=
  match j with
  | JList items => JList (map sort_keys items)
  | JDict members =>
      JDict (sort_members
               (map (fun '(k, v) => (k, sort_keys v)) members))
  | _ => j
  end.

(** [json.dumps(j, sort_keys=True)] *)
Definition dumps_sorted (j : json) : string :=
  string_of_list_ascii (encode (sort_keys j)).

(** An optional string: [None] is [null]. *)
Definition of_option (o : option string) : json :=
  match o with
  | Some s => JStr s
  | None => JNull
  end.

(** *** Reading an encoding back

    What follows is used to show that [encode] loses nothing. *)

Definition is_digit (c : ascii) : bool :=
  let n := nat_of_ascii c in ((48 <=? n) && (n <=? 57))%nat.

(** Whether the text that follows starts with something other than a digit. *)
Definition no_digit_ahead (r : list ascii) : bool :=
  match r with
  | c :: _ => negb (is_digit c)
  | [] => true
  end.

Definition hex_value (c : ascii) : nat :=
  let n := nat_of_ascii c in
  if (n <=? 57)%nat then (n - 48)%nat else (n - 87)%nat.

(** The character an escape sequence at the head of [l] stands for, and the
    text after it; nothing at a closing quote. *)
Definition unescape_char (l : list ascii) : option (ascii * list ascii) :=
  match l with
  | [] => None
  | c :: r =>
      if Ascii.eqb c quote then None
      else if Ascii.eqb c "\" then
        match r with
        | [] => None
        | e :: r' =>
            if Ascii.eqb e "u" then
              match r' with
              | _ :: _ :: h1 :: h2 :: r'' =>
                  Some (ascii_of_nat (16 * hex_value h1 + hex_value h2), r'')
              | _ => None
              end
            else if Ascii.eqb e "b" then Some (ascii_of_nat 8, r')
            else if Ascii.eqb e "f" then Some (ascii_of_nat 12, r')
            else if Ascii.eqb e "n" then Some (ascii_of_nat 10, r')
            else if Ascii.eqb e "r" then Some (ascii_of_nat 13, r')
            else if Ascii.eqb e "t" then Some (ascii_of_nat 9, r')
            else Some (e, r')
        end
      else Some (c, r)
  end.

Inductive kind : Type := KNull | KInt | KStr | KList | KDict.

Definition kind_of (j : json) : kind :=
  match j with
  | JNull => KNull
  | JInt _ => KInt
  | JStr _ => KStr
  | JList _ => KList
  | JDict _ => KDict
  end.

(** The kind of value a text can start with, by its first character. *)
Definition head_kind (l : list ascii) : option kind :=
  match l with
  | [] => None
  | c :: _ =>
      if Ascii.eqb c "n" then Some KNull
      else if is_digit c || Ascii.eqb c "-" then Some KInt
      else if Ascii.eqb c quote then Some KStr
      else if Ascii.eqb c "[" then Some KList
      else if Ascii.eqb c "{" then Some KDict
      else None
  end.

End Json.

Import Json.

(** ** [hashlib] *)

(** [hashlib.sha256(s.encode()).hexdigest()]: the digest of the text [s], in
    hexadecimal.  [dumps_sorted] writes ASCII only, so that [encode()] does
    not change the characters. *)
Class Hashlib := { sha256_hexdigest : string -> string }.

(** Two different texts with the same digest. *)
Definition collision `{Hashlib} (x y : string) : Prop :=
  x <> y /\ sha256_hexdigest x = sha256_hexdigest y.

(** ** SHA-256 (FIPS 180-4), the digest behind [hashlib.sha256] *)

Module Sha256.

Definition mask : Z := 2 ^ 32 - 1.

Definition add32 (x y : Z) : Z := Z.land (x + y) mask.

Definition rotr (n x : Z) : Z :=
  Z.lor (Z.shiftr x n) (Z.land (Z.shiftl x (32 - n)) mask).

Definition Ch (x y z : Z) : Z :=
  Z.lxor (Z.land x y) (Z.land (Z.lxor x mask) z).

Definition Maj (x y z : Z) : Z :=
  Z.lxor (Z.lxor (Z.land x y) (Z.land x z)) (Z.land y z).

Definition bsig0 (x : Z) : Z :=
  Z.lxor (Z.lxor (rotr 2 x) (rotr 13 x)) (rotr 22 x).

Definition bsig1 (x : Z) : Z :=
  Z.lxor (Z.lxor (rotr 6 x) (rotr 11 x)) (rotr 25 x).

Definition ssig0 (x : Z) : Z :=
  Z.lxor (Z.lxor (rotr 7 x) (rotr 18 x)) (Z.shiftr x 3).

Definition ssig1 (x : Z) : Z :=
  Z.lxor (Z.lxor (rotr 17 x) (rotr 19 x)) (Z.shiftr x 10).

(** The first 64 primes. *)
Definition primes : list Z :=
  [ 2; 3; 5; 7; 11; 13; 17; 19; 23; 29; 31; 37; 41; 43; 47; 53; 59; 61; 67;
    71; 73; 79; 83; 89; 97; 101; 103; 107; 109; 113; 127; 131; 137; 139; 149;
    151; 157; 163; 167; 173; 179; 181; 191; 193; 197; 199; 211; 223; 227; 229;
    233; 239; 241; 251; 257; 263; 269; 271; 277; 281; 283; 293; 307; 311 ].

(** The integer cube root of [n], bit by bit from [2 ^ bit] down. *)
Fixpoint cube_root_from (bit : nat) (n r : Z) : Z :=
  let c := r + 2 ^ Z.of_nat bit in
  let r' := if (c * c * c <=? n)%Z then c else r in
  match bit with
  | O => r'
  | S bit' => cube_root_from bit' n r'
  end.

(** The first 32 bits of the fractional part of the cube root, and of the
    square root, of [p]. *)
Definition cube_root_bits (p : Z) : Z :=
  Z.land (cube_root_from 40 (p * 2 ^ 96) 0) mask.

Definition square_root_bits (p : Z) : Z :=
  Z.land (Z.sqrt (p * 2 ^ 64)) mask.

(** The round constants. *)
Definition K : list Z :=
  [ 1116352408; 1899447441; 3049323471; 3921009573; 961987163; 1508970993;
    2453635748; 2870763221; 3624381080; 310598401; 607225278; 1426881987;
    1925078388; 2162078206; 2614888103; 3248222580; 3835390401; 4022224774;
    264347078; 604807628; 770255983; 1249150122; 1555081692; 1996064986;
    2554220882; 2821834349; 2952996808; 3210313671; 3336571891; 3584528711;
    113926993; 338241895; 666307205; 773529912; 1294757372; 1396182291;
    1695183700; 1986661051; 2177026350; 2456956037; 2730485921; 2820302411;
    3259730800; 3345764771; 3516065817; 3600352804; 4094571909; 275423344;
    430227734; 506948616; 659060556; 883997877; 958139571; 1322822218;
    1537002063; 1747873779; 1955562222; 2024104815; 2227730452; 2361852424;
    2428436474; 2756734187; 3204031479; 3329325298 ].

(** The initial hash value. *)
Definition H0 : list Z :=
  [ 1779033703; 3144134277; 1013904242; 2773480762; 1359893119; 2600822924;
    528734635; 1541459225 ].

(** One round on the working variables [a; b; c; d; e; f; g; h]. *)
Definition round (k w : Z) (st : list Z) : list Z :=
  match st with
  | [a; b; c; d; e; f; g; h] =>
      let t1 := add32 (add32 (add32 (add32 h (bsig1 e)) (Ch e f g)) k) w in
      let t2 := add32 (bsig0 a) (Maj a b c) in
      [add32 t1 t2; a; b; c; add32 d t1; e; f; g]
  | _ => st
  end.

(** The rounds of one block; [window] holds the sixteen latest words of the
    message schedule, the current one first. *)
Fixpoint rounds (ks : list Z) (window : list Z) (st : list Z) : list Z :=
  match ks, window with
  | k :: ks', w :: rest =>
      let next :=
        add32 (add32 (add32 (ssig1 (nth 14 window 0)) (nth 9 window 0))
                     (ssig0 (nth 1 window 0))) w in
      rounds ks' (rest ++ [next]) (round k w st)
  | _, _ => st
  end.

Fixpoint add_all (xs ys : list Z) : list Z :=
  match xs, ys with
  | x :: xs', y :: ys' => add32 x y :: add_all xs' ys'
  | _, _ => []
  end.

Definition compress (h : list Z) (block : list Z) : list Z :=
  add_all h (rounds K block h).

Fixpoint words (bytes : list Z) : list Z :=
  match bytes with
  | b0 :: b1 :: b2 :: b3 :: rest =>
      (Z.shiftl b0 24 + Z.shiftl b1 16 + Z.shiftl b2 8 + b3) :: words rest
  | _ => []
  end.

Definition be64 (n : Z) : list Z :=
  map (fun i => Z.land (Z.shiftr n (8 * i)) 255) [7; 6; 5; 4; 3; 2; 1; 0].

Definition pad (bytes : list Z) : list Z :=
  let len := Z.of_nat (length bytes) in
  bytes ++ [128] ++ List.repeat 0 (Z.to_nat ((55 - len) mod 64))
        ++ be64 (8 * len).

Fixpoint blocks (fuel : nat) (ws : list Z) (h : list Z) : list Z :=
  match fuel, ws with
  | S fuel', _ :: _ => blocks fuel' (drop 16 ws) (compress h (take 16 ws))
  | _, _ => h
  end.

Definition hex_word (x : Z) : list ascii :=
  map (fun i => hex_digit (Z.to_nat (Z.land (Z.shiftr x (4 * i)) 15)))
      [7; 6; 5; 4; 3; 2; 1; 0].

Definition hexdigest (s : string) : string :=
  let bytes := map (fun c => Z.of_nat (nat_of_ascii c)) (list_ascii_of_string s) in
  let ws := words (pad bytes) in
  string_of_list_ascii (concat (map hex_word (blocks (length ws) ws H0))).

End Sha256.

(** The program as it runs: [hashlib] with SHA-256. *)
Definition hashlib_sha256 : Hashlib := {| sha256_hexdigest := Sha256.hexdigest |}.

(** [a == b] on values that are a string or [None]. *)
Definition py_eq (a b : option string) : bool :=
  match a, b with
  | None, None => true
  | Some x, Some y => String.eqb x y
  | _, _ => false
  end.

(** ** Outcomes and state transformers *)

Inductive exn : Type := IndexError.

(** A call returns, raises, or is still running when the fuel is spent. *)
Inductive outcome (A : Type) : Type :=
| Returned (a : A)
| Raised (e : exn)
| Exhausted.

Arguments Returned {A} a.
Arguments Raised {A} e.
Arguments Exhausted {A}.

(** A method of an object whose state is an [S]. *)
Definition M (S A : Type) : Type := S -> outcome A * S.

Definition ret {S A} (a : A) : M S A := fun s => (Returned a, s).

Definition bind {S A B} (m : M S A) (k : A -> M S B) : M S B :=
  fun s =>
    match m s with
    | (Returned a, s') => k a s'
    | (Raised e, s') => (Raised e, s')
    | (Exhausted, s') => (Exhausted, s')
    end.

Definition gets {S A} (f : S -> A) : M S A := fun s => (Returned (f s), s).

Definition modify {S} (f : S -> S) : M S unit := fun s => (Returned tt, f s).

Definition raise {S A} (e : exn) : M S A := fun s => (Raised e, s).

Notation "'let*' x := m 'in' k" := (bind m (fun x => k))
  (at level 10, x name, m at level 100, k at level 200).
Notation "m >>> k" := (bind m (fun _ => k))
  (at level 100, k at level 200, right associativity).

(** ** The dictionaries of [Block.transactions] *)

Module TxDict.

(** A dictionary with the keys ["sender"], ["recipient"], ["amount"],
    ["timestamp"] and, when [to_dict] built it, ["hash"]; the dictionary of
    the genesis block has no ["hash"]. *)
Record t : Type := Build {
  sender : option string;
  recipient : option string;
  amount : Z;
  timestamp : Z;
  hash : option string
}.

Definition to_json (d : t) : json :=
  JDict ([("sender", of_option (sender d));
          ("recipient", of_option (recipient d));
          ("amount", JInt (amount d));
          ("timestamp", JInt (timestamp d))]
         ++ match hash d with
            | Some h => [("hash", JStr h)]
            | None => []
            end).

End TxDict.

(** ** [class Transaction] *)

Module Transaction.

Record t : Type := Build {
  sender : option string;
  recipient : option string;
  amount : Z;
  timestamp : Z
}.

(** [Transaction(sender, recipient, amount)], at clock reading [now]. *)
Definition __init__ (sender recipient : option string) (amount now : Z) : t :=
  {| sender := sender; recipient := recipient; amount := amount;
     timestamp := now |}.

Section Methods.
Context `{Hashlib}.

Definition calculate_hash (self : t) : string :=
  let tx_string :=
    dumps_sorted
      (JDict [("sender", of_option (sender self));
              ("recipient", of_option (recipient self));
              ("amount", JInt (amount self));
              ("timestamp", JInt (timestamp self))]) in
  sha256_hexdigest tx_string.

Definition to_dict (self : t) : TxDict.t :=
  {| TxDict.sender := sender self;
     TxDict.recipient := recipient self;
     TxDict.amount := amount self;
     TxDict.timestamp := timestamp self;
     TxDict.hash := Some (calculate_hash self) |}.

End Methods.

Definition is_valid (self : t) : bool :=
  if py_eq (sender self) (recipient self) then false
  else if (amount self <=? 0)%Z then false
  else true.

End Transaction.

(** ** [class Block] *)

Module Block.

Record t : Type := Build {
  index : Z;
  timestamp : Z;
  transactions : list TxDict.t;
  previous_hash : string;
  nonce : Z;
  hash : string
}.

Definition set_nonce (n : Z) (self : t) : t :=
  {| index := index self; timestamp := timestamp self;
     transactions := transactions self;
     previous_hash := previous_hash self; nonce := n; hash := hash self |}.

Definition set_hash (h : string) (self : t) : t :=
  {| index := index self; timestamp := timestamp self;
     transactions := transactions self;
     previous_hash := previous_hash self; nonce := nonce self; hash := h |}.

Definition set_transactions (l : list TxDict.t) (self : t) : t :=
  {| index := index self; timestamp := timestamp self;
     transactions := l;
     previous_hash := previous_hash self; nonce := nonce self;
     hash := hash self |}.

(** [self.hash[:difficulty] == "0" * difficulty], the exit test of the
    proof-of-work loop. *)
Definition meets_target (difficulty : Z) (h : string) : bool :=
  String.eqb (PyStr.slice_to h difficulty) (PyStr.repeat "0" difficulty).

Section Methods.
Context `{Hashlib}.

(** The text [calculate_hash] digests. *)
Definition block_string (self : t) : string :=
  dumps_sorted
    (JDict [("index", JInt (index self));
            ("timestamp", JInt (timestamp self));
            ("transactions", JList (map TxDict.to_json (transactions self)));
            ("previous_hash", JStr (previous_hash self));
            ("nonce", JInt (nonce self))]).

Definition calculate_hash (self : t) : string :=
  sha256_hexdigest (block_string self).

(** [Block(index, transactions, previous_hash, nonce)], at clock reading
    [now]. *)
Definition __init__ (index : Z) (transactions : list TxDict.t)
    (previous_hash : string) (nonce : Z) (now : Z) : t :=
  let self :=
    {| index := index; timestamp := now; transactions := transactions;
       previous_hash := previous_hash; nonce := nonce;
       hash := EmptyString |} in
  set_hash (calculate_hash self) self.

(** One execution of the body of the [while] loop. *)
Definition mine_step (self : t) : t :=
  let self := set_nonce (nonce self + 1) self in
  set_hash (calculate_hash self) self.

(** The block after [k] executions of the body. *)
Definition attempt (k : nat) (self : t) : t := Nat.iter k mine_step self.

(** The [while] loop of [mine_block]; [iterations] counts the executions
    of its body so far. *)
Fixpoint mine_loop (fuel : nat) (difficulty : Z) (iterations : nat)
    (self : t) : outcome nat * t :=
  if negb (meets_target difficulty (hash self)) then
    match fuel with
    | O => (Exhausted, self)
    | S fuel' => mine_loop fuel' difficulty (S iterations) (mine_step self)
    end
  else (Returned iterations, self).

(** [self.mine_block(difficulty)].  Python returns [None]; the model
    returns the number of executions of the loop body. *)
Definition mine_block (fuel : nat) (difficulty : Z) : M t nat :=
  mine_loop fuel difficulty O.

End Methods.

End Block.

(** ** [class Blockchain] *)

Module Blockchain.

Record t : Type := Build {
  chain : list Block.t;
  difficulty : Z;
  pending_transactions : list Transaction.t;
  mining_reward : Z
}.

Definition set_chain (l : list Block.t) (self : t) : t :=
  {| chain := l; difficulty := difficulty self;
     pending_transactions := pending_transactions self;
     mining_reward := mining_reward self |}.

Definition set_pending_transactions (l : list Transaction.t) (self : t) : t :=
  {| chain := chain self; difficulty := difficulty self;
     pending_transactions := l; mining_reward := mining_reward self |}.

(** [self.chain.append(b)] *)
Definition chain_append (b : Block.t) (self : t) : t :=
  set_chain (chain self ++ [b]) self.

(** [self.pending_transactions.append(tx)] *)
Definition pending_append (tx : Transaction.t) (self : t) : t :=
  set_pending_transactions (pending_transactions self ++ [tx]) self.

(** The three diagnostics of [is_chain_valid]. *)
Inductive failure : Type :=
| HashInvalid
| NotLinked
| DifficultyNotMet.

(** The dictionary [get_chain_info] returns. *)
Record info : Type := Info {
  info_blocks : nat;
  info_difficulty : Z;
  info_pending_transactions : nat;
  info_is_valid : bool
}.

(** The body of the inner loop of [get_balance]. *)
Definition balance_step (address : option string) (balance : Z)
    (transaction : TxDict.t) : Z :=
  let balance :=
    if py_eq (TxDict.sender transaction) address
    then balance - TxDict.amount transaction else balance in
  let balance :=
    if py_eq (TxDict.recipient transaction) address
    then balance + TxDict.amount transaction else balance in
  balance.

(** The two nested loops of [get_balance], from [balance = 0.0]. *)
Definition scan_balance (blocks : list Block.t) (address : option string) : Z :=
  fold_left
    (fun balance block =>
       fold_left (balance_step address) (Block.transactions block) balance)
    blocks 0.

(** [self.get_balance(address)] *)
Definition get_balance (address : option string) : M t Z :=
  gets (fun self => scan_balance (chain self) address).

(** [self.get_latest_block()]: [self.chain[-1]] raises on an empty list. *)
Definition get_latest_block : M t Block.t :=
  fun self =>
    match last (chain self) with
    | Some b => (Returned b, self)
    | None => (Raised IndexError, self)
    end.

(** [self.add_transaction(transaction)] *)
Definition add_transaction (transaction : Transaction.t) : M t bool :=
  if negb (Transaction.is_valid transaction) then ret false
  else
    let* balance := get_balance (Transaction.sender transaction) in
    if (balance <? Transaction.amount transaction)%Z then ret false
    else (modify (pending_append transaction) >>> ret true).

(** A method call on a local object: the state of [self] is not touched,
    the object is returned as the call leaves it. *)
Definition on_local {S L A} (m : M L A) (l : L) : M S L :=
  fun s =>
    match m l with
    | (Returned _, l') => (Returned l', s)
    | (Raised e, _) => (Raised e, s)
    | (Exhausted, _) => (Exhausted, s)
    end.

Section Methods.
Context `{Hashlib}.

(** [self.create_genesis_block()]; the clock is read for the dictionary
    ([t_record]) and then by [Block] ([t_block]). *)
Definition create_genesis_block (t_record t_block : Z) : M t unit :=
  let genesis_transactions :=
    [ {| TxDict.sender := None; TxDict.recipient := Some "genesis";
         TxDict.amount := 0; TxDict.timestamp := t_record;
         TxDict.hash := None |} ] in
  let genesis_block := Block.__init__ 0 genesis_transactions "0" 0 t_block in
  modify (chain_append genesis_block).

(** [Blockchain(difficulty)] *)
Definition __init__ (difficulty : Z) (t_record t_block : Z) : t :=
  let self :=
    {| chain := []; difficulty := difficulty;
       pending_transactions := []; mining_reward := 100 |} in
  snd (create_genesis_block t_record t_block self).

(** The block [mine_pending_transactions] constructs, before it is mined. *)
Definition new_block (self : t) (latest : Block.t)
    (mining_reward_address : option string) (t_reward t_block : Z) : Block.t :=
  let reward_transaction :=
    Transaction.__init__ None mining_reward_address
      (mining_reward self) t_reward in
  Block.__init__ (Z.of_nat (length (chain self)))
    (map Transaction.to_dict
         (pending_transactions self ++ [reward_transaction]))
    (Block.hash latest) 0 t_block.

(** [self.mine_pending_transactions(mining_reward_address)]; the clock is
    read by [Transaction] ([t_reward]) and then by [Block] ([t_block]). *)
Definition mine_pending_transactions (fuel : nat)
    (mining_reward_address : option string) (t_reward t_block : Z)
  : M t unit :=
  let* reward := gets mining_reward in
  let reward_transaction :=
    Transaction.__init__ None mining_reward_address reward t_reward in
  modify (pending_append reward_transaction) >>>
  let* n := gets (fun self => length (chain self)) in
  let* dicts :=
    gets (fun self => map Transaction.to_dict (pending_transactions self)) in
  let* latest := get_latest_block in
  let new_block :=
    Block.__init__ (Z.of_nat n) dicts (Block.hash latest) 0 t_block in
  let* d := gets difficulty in
  let* new_block := on_local (Block.mine_block fuel d) new_block in
  modify (chain_append new_block) >>>
  modify (set_pending_transactions []).

(** The three tests [is_chain_valid] makes on [current_block]. *)
Definition check_block (difficulty : Z) (current_block previous_block : Block.t)
  : option failure :=
  if negb (String.eqb (Block.hash current_block)
                      (Block.calculate_hash current_block))
  then Some HashInvalid
  else if negb (String.eqb (Block.previous_hash current_block)
                           (Block.hash previous_block))
  then Some NotLinked
  else if negb (PyStr.startswith (Block.hash current_block)
                                 (PyStr.repeat "0" difficulty))
  then Some DifficultyNotMet
  else None.

(** The loop [for i in range(1, len(self.chain))], entered at [i] with
    [previous_block = self.chain[i - 1]] and [rest = self.chain[i:]]; the
    result is the first index that fails, with the diagnostic printed. *)
Fixpoint check_from (difficulty : Z) (i : nat) (previous_block : Block.t)
    (rest : list Block.t) : option (nat * failure) :=
  match rest with
  | [] => None
  | current_block :: rest' =>
      match check_block difficulty current_block previous_block with
      | Some f => Some (i, f)
      | None => check_from difficulty (S i) current_block rest'
      end
  end.

Definition first_failure (self : t) : option (nat * failure) :=
  match chain self with
  | [] => None
  | genesis :: rest => check_from (difficulty self) 1 genesis rest
  end.

(** [self.is_chain_valid()] *)
Definition is_chain_valid : M t bool :=
  gets (fun self =>
          match first_failure self with
          | Some _ => false
          | None => true
          end).

(** [self.get_chain_info()] *)
Definition get_chain_info : M t info :=
  let* blocks := gets (fun self => length (chain self)) in
  let* d := gets difficulty in
  let* pending := gets (fun self => length (pending_transactions self)) in
  let* valid := is_chain_valid in
  ret {| info_blocks := blocks; info_difficulty := d;
         info_pending_transactions := pending; info_is_valid := valid |}.

End Methods.

End Blockchain.

(** ** Tampering, as the demonstration does it *)

Module Tamper.

(** [transaction[key] = v] for the four keys of a transfer. *)
Inductive assignment : Type :=
| SetSender (v : option string)
| SetRecipient (v : option string)
| SetAmount (v : Z)
| SetTimestamp (v : Z).

Definition assign (a : assignment) (d : TxDict.t) : TxDict.t :=
  match a with
  | SetSender v =>
      {| TxDict.sender := v; TxDict.recipient := TxDict.recipient d;
         TxDict.amount := TxDict.amount d;
         TxDict.timestamp := TxDict.timestamp d; TxDict.hash := TxDict.hash d |}
  | SetRecipient v =>
      {| TxDict.sender := TxDict.sender d; TxDict.recipient := v;
         TxDict.amount := TxDict.amount d;
         TxDict.timestamp := TxDict.timestamp d; TxDict.hash := TxDict.hash d |}
  | SetAmount v =>
      {| TxDict.sender := TxDict.sender d;
         TxDict.recipient := TxDict.recipient d; TxDict.amount := v;
         TxDict.timestamp := TxDict.timestamp d; TxDict.hash := TxDict.hash d |}
  | SetTimestamp v =>
      {| TxDict.sender := TxDict.sender d;
         TxDict.recipient := TxDict.recipient d;
         TxDict.amount := TxDict.amount d; TxDict.timestamp := v;
         TxDict.hash := TxDict.hash d |}
  end.

(** [block.transactions[j][key] = v] *)
Definition in_block (j : nat) (a : assignment) : M Block.t unit :=
  fun block =>
    match Block.transactions block !! j with
    | Some d =>
        (Returned tt,
         Block.set_transactions
           (<[j := assign a d]> (Block.transactions block)) block)
    | None => (Raised IndexError, block)
    end.

(** [blockchain.chain[i].transactions[j][key] = v], the statement of the
    demonstration with [i = 1], [j = 0], [key = 'amount']. *)
Definition in_chain (i j : nat) (a : assignment) : M Blockchain.t unit :=
  fun self =>
    match Blockchain.chain self !! i with
    | Some block =>
        match in_block j a block with
        | (Returned _, block') =>
            (Returned tt,
             Blockchain.set_chain (<[i := block']> (Blockchain.chain self)) self)
        | (Raised e, _) => (Raised e, self)
        | (Exhausted, _) => (Exhausted, self)
        end
    | None => (Raised IndexError, self)
    end.

End Tamper.

(** ** The properties, in the words of the specification *)

Module Spec.

(** Chain linkage: [blocks] is not empty, [blocks[0].previous_hash == "0"],
    and [blocks[i].previous_hash == blocks[i-1].hash] for every [i >= 1]. *)
Definition linkage (blocks : list Block.t) : Prop :=
  blocks <> []
  /\ (forall b, blocks !! 0%nat = Some b -> Block.previous_hash b = "0")
  /\ (forall i current previous,
        (1 <= i)%nat ->
        blocks !! i = Some current ->
        blocks !! (i - 1)%nat = Some previous ->
        Block.previous_hash current = Block.hash previous).

(** What one transaction record contributes to the balance of [address]:
    [+amount] when it is the recipient, [-amount] when it is the sender. *)
Definition contribution (address : option string) (d : TxDict.t) : Z :=
  (if py_eq (TxDict.recipient d) address then TxDict.amount d else 0)
  - (if py_eq (TxDict.sender d) address then TxDict.amount d else 0).

(** All transaction records of all blocks, in chain order. *)
Definition records (blocks : list Block.t) : list TxDict.t :=
  concat (map Block.transactions blocks).

(** The balance as the sum of the contributions. *)
Definition balance (blocks : list Block.t) (address : option string) : Z :=
  foldr Z.add 0 (map (contribution address) (records blocks)).

(** The validity of a transaction: the sender is null or differs from the
    recipient, and the amount is positive. *)
Definition valid (tx : Transaction.t) : Prop :=
  (Transaction.sender tx = None
   \/ Transaction.sender tx <> Transaction.recipient tx)
  /\ 0 < Transaction.amount tx.

End Spec.

(** ** Runs of the program under SHA-256 *)

Module Demo.

#[local] Existing Instance hashlib_sha256.

(** [Blockchain(difficulty=1)], the clock reading 1700000000 and then
    1700000001. *)
Definition fresh : Blockchain.t :=
  Blockchain.__init__ 1 1700000000 1700000001.


(** [Transaction("Alice", "Bob", 50)] *)
Definition tx1 : Transaction.t :=
  Transaction.__init__ (Some "Alice") (Some "Bob") 50 1700000002.

(** The chain after [mine_pending_transactions("Miner1")] on [fresh]. *)
Definition mined : outcome unit * Blockchain.t :=
  Blockchain.mine_pending_transactions 64 (Some "Miner1")
    1700000003 1700000004 fresh.


(** The block [mine_pending_transactions] builds in that call, before the
    proof of work and after it. *)
Definition reward_record : TxDict.t :=
  Transaction.to_dict (Transaction.__init__ None (Some "Miner1") 100 1700000003).

Definition candidate : Block.t :=
  Block.__init__ 1 [reward_record]
    "8efef7de345584b7f00c69e232eaa41e395c9d354c30c660cfc9432c236b2902"
    0 1700000004.

Definition sealed : Block.t := snd (Block.mine_block 64 1 candidate).

(** The sealed block after [transactions[0]['amount'] = 999999]. *)
Definition forged : Block.t :=
  snd (Tamper.in_block 0 (Tamper.SetAmount 999999) sealed).

(** [Transaction("Miner1", "Bob", 60)], submitted twice to the mined chain,
    and the chain after [mine_pending_transactions("Miner2")]. *)
Definition spend : Transaction.t :=
  Transaction.__init__ (Some "Miner1") (Some "Bob") 60 1700000005.

Definition spent_twice : Blockchain.t :=
  Blockchain.pending_append spend (Blockchain.pending_append spend (snd mined)).


(** A block to put in the place of [sealed]: no transactions at all. *)
Definition rewritten : outcome nat * Block.t :=
  Block.mine_block 16 1
    (Block.__init__ (Block.index sealed) [] (Block.previous_hash sealed) 0
       1700000012).

(** The genesis block of [fresh]. *)
Definition genesis : Block.t :=
  Block.__init__ 0
    [ {| TxDict.sender := None; TxDict.recipient := Some "genesis";
         TxDict.amount := 0; TxDict.timestamp := 1700000000;
         TxDict.hash := None |} ]
    "0" 0 1700000001.

End Demo.

(** ** Assignments to the attributes of a block *)

Module Forge.

(** [block.<attribute> = v] *)
Inductive assignment : Type :=
| SetIndex (v : Z)
| SetTimestamp (v : Z)
| SetTransactions (v : list TxDict.t)
| SetPreviousHash (v : string)
| SetNonce (v : Z)
| SetHash (v : string).

Definition assign (a : assignment) (b : Block.t) : Block.t :=
  match a with
  | SetIndex v =>
      {| Block.index := v; Block.timestamp := Block.timestamp b;
         Block.transactions := Block.transactions b;
         Block.previous_hash := Block.previous_hash b;
         Block.nonce := Block.nonce b; Block.hash := Block.hash b |}
  | SetTimestamp v =>
      {| Block.index := Block.index b; Block.timestamp := v;
         Block.transactions := Block.transactions b;
         Block.previous_hash := Block.previous_hash b;
         Block.nonce := Block.nonce b; Block.hash := Block.hash b |}
  | SetTransactions v => Block.set_transactions v b
  | SetPreviousHash v =>
      {| Block.index := Block.index b; Block.timestamp := Block.timestamp b;
         Block.transactions := Block.transactions b;
         Block.previous_hash := v;
         Block.nonce := Block.nonce b; Block.hash := Block.hash b |}
  | SetNonce v => Block.set_nonce v b
  | SetHash v => Block.set_hash v b
  end.

(** Whether the assignment is to an attribute that [calculate_hash] reads,
    that is to any attribute but [hash]. *)
Definition to_content (a : assignment) : bool :=
  match a with
  | SetHash _ => false
  | _ => true
  end.

(** [blockchain.chain[i].<attribute> = v] *)
Definition in_chain (i : nat) (a : assignment) : M Blockchain.t unit :=
  fun self =>
    match Blockchain.chain self !! i with
    | Some block =>
        (Returned tt,
         Blockchain.set_chain
           (<[i := assign a block]> (Blockchain.chain self)) self)
    | None => (Raised IndexError, self)
    end.

End Forge.

(** ** Sequences of calls *)

Module Session.

(** A call of one of the two methods that change a chain. *)
Inductive call : Type :=
| AddTransaction (transaction : Transaction.t)
| MinePendingTransactions (fuel : nat) (mining_reward_address : option string)
    (t_reward t_block : Z).

(** The number of calls of [mine_pending_transactions] among [calls]. *)
Fixpoint mined_blocks (calls : list call) : nat :=
  match calls with
  | [] => O
  | AddTransaction _ :: calls' => mined_blocks calls'
  | MinePendingTransactions _ _ _ _ :: calls' => S (mined_blocks calls')
  end.

Section Methods.
Context `{Hashlib}.

Definition perform (c : call) : M Blockchain.t unit :=
  match c with
  | AddTransaction transaction =>
      (Blockchain.add_transaction transaction >>> ret tt)
  | MinePendingTransactions fuel address t_reward t_block =>
      Blockchain.mine_pending_transactions fuel address t_reward t_block
  end.

(** The calls one after the other; an exception, or a proof-of-work search
    that does not end, ends the session. *)
Fixpoint run (calls : list call) : M Blockchain.t unit :=
  match calls with
  | [] => ret tt
  | c :: calls' => (perform c >>> run calls')
  end.

End Methods.

End Session.

(** ** Sums over the ledger *)

Module Ledger.

(** The text [Transaction.calculate_hash] digests. *)
Definition tx_string (tx : Transaction.t) : string :=
  dumps_sorted
    (JDict [("sender", of_option (Transaction.sender tx));
            ("recipient", of_option (Transaction.recipient tx));
            ("amount", JInt (Transaction.amount tx));
            ("timestamp", JInt (Transaction.timestamp tx))]).

(** What a pending transaction adds to the balance of [address] once it is
    part of a block. *)
Definition effect (address : option string) (tx : Transaction.t) : Z :=
  (if py_eq (Transaction.recipient tx) address then Transaction.amount tx
   else 0)
  - (if py_eq (Transaction.sender tx) address then Transaction.amount tx
     else 0).

(** The sum of a list of integers. *)
Definition sum (l : list Z) : Z := foldr Z.add 0 l.


End Ledger.

(** ** [demo] *)

Module Main.

(** What [demo] prints: the results it ignores or shows, in order. *)
Record report : Type := Report {
  initial_info : Blockchain.info;
  accepted : list bool;
  balances_block_1 : list Z;
  accepted_4 : bool;
  final_balances : list Z;
  valid : bool;
  valid_after_tampering : bool;
  final_info : Blockchain.info
}.

Section Methods.
Context `{Hashlib}.

(** The balances of the [names], as [demo] prints them. *)
Fixpoint balances (names : list string) : M Blockchain.t (list Z) :=
  match names with
  | [] => ret []
  | name :: names' =>
      let* b := Blockchain.get_balance (Some name) in
      let* bs := balances names' in
      ret (b :: bs)
  end.

(** [demo()]; [clock n] is the [n]-th reading of the clock. *)
Definition demo (fuel : nat) (clock : nat -> Z)
  : outcome report * Blockchain.t :=
  let blockchain := Blockchain.__init__ 2 (clock 0%nat) (clock 1%nat) in
  (let* info0 := Blockchain.get_chain_info in
   let tx1 :=
     Transaction.__init__ (Some "Alice") (Some "Bob") 50 (clock 2%nat) in
   let tx2 :=
     Transaction.__init__ (Some "Bob") (Some "Charlie") 25 (clock 3%nat) in
   let tx3 :=
     Transaction.__init__ (Some "Charlie") (Some "Alice") 10 (clock 4%nat) in
   let* a1 := Blockchain.add_transaction tx1 in
   let* a2 := Blockchain.add_transaction tx2 in
   let* a3 := Blockchain.add_transaction tx3 in
   Blockchain.mine_pending_transactions fuel (Some "Miner1")
     (clock 5%nat) (clock 6%nat) >>>
   let* b1 := balances ["Alice"; "Bob"; "Charlie"; "Miner1"] in
   let tx4 :=
     Transaction.__init__ (Some "Alice") (Some "Bob") 20 (clock 7%nat) in
   let* a4 := Blockchain.add_transaction tx4 in
   Blockchain.mine_pending_transactions fuel (Some "Miner2")
     (clock 8%nat) (clock 9%nat) >>>
   let* b2 := balances ["Alice"; "Bob"; "Charlie"; "Miner1"; "Miner2"] in
   let* v := Blockchain.is_chain_valid in
   Tamper.in_chain 1 0 (Tamper.SetAmount 999999) >>>
   let* v' := Blockchain.is_chain_valid in
   let* info1 := Blockchain.get_chain_info in
   ret {| initial_info := info0; accepted := [a1; a2; a3];
          balances_block_1 := b1; accepted_4 := a4; final_balances := b2;
          valid := v; valid_after_tampering := v'; final_info := info1 |})
    blockchain.

End Methods.

End Main.

(** [demo()] under SHA-256, the clock reading 1700000070, 1700000071, ... *)
Definition demo_run : outcome Main.report * Blockchain.t :=
  Main.demo (H := hashlib_sha256) 16 (fun n => 1700000070 + Z.of_nat n).

(** * Properties *)

(** ** Python strings and comparisons *)



Lemma take_replicate_leading_zeros (n : nat) (h : string) :
  PyStr.take n h = PyStr.replicate n "0" <-> (n <= PyStr.leading_zeros h)%nat.
Proof.
  revert h. induction n as [|n IH]; intros h; simpl.
  - destruct h; split; intros; try reflexivity; lia.
  - destruct h as [|c h]; simpl.
    + split; [discriminate | lia].
    + destruct (Ascii.eqb_spec c "0") as [->|Hc].
      * rewrite <- Nat.succ_le_mono, <- IH. split; congruence.
      * split; [congruence | lia].
Qed.

(** The exit test of the proof-of-work loop counts leading zeros. *)
Lemma meets_target_leading_zeros (d : Z) (h : string) :
  0 <= d ->
  Block.meets_target d h = true <-> d <= Z.of_nat (PyStr.leading_zeros h).
Proof.
  intros Hd. unfold Block.meets_target, PyStr.slice_to, PyStr.repeat.
  rewrite String.eqb_eq.
  destruct (Z.leb_spec 0 d); [|lia].
  rewrite take_replicate_leading_zeros. lia.
Qed.

(** ** SHA-256 *)

(** The constants are what the standard says they are. *)
Lemma round_constants :
  Sha256.K = map Sha256.cube_root_bits Sha256.primes
  /\ Sha256.H0 = map Sha256.square_root_bits (take 8 Sha256.primes).
Proof. split; vm_compute; reflexivity. Qed.

(** The test vectors of the standard. *)
Lemma sha256_abc :
  Sha256.hexdigest "abc"
  = "ba7816bf8f01cfea414140de5dae2223b00361a396177a9cb410ff61f20015ad".
Proof. vm_compute. reflexivity. Qed.

Lemma sha256_two_blocks :
  Sha256.hexdigest "abcdbcdecdefdefgefghfghighijhijkijkljklmklmnlmnomnopnopq"
  = "248d6a61d20638b8e5c026930c3e6039a33ce45964ff2167f6ecedd419db06c1".
Proof. vm_compute. reflexivity. Qed.

(** ** Transactions *)



(** C10: a transaction whose sender and recipient are both null is not
    valid, whatever its amount: [None == None] holds. *)
Theorem is_valid_null_null (amount now : Z) :
  Transaction.is_valid (Transaction.__init__ None None amount now) = false.
Proof. reflexivity. Qed.

(** ** Proof of work *)

Section ProofOfWork.
Context `{Hashlib}.

(** The body of the loop leaves a block whose hash is its content hash. *)
Lemma mine_step_sealed (b : Block.t) :
  Block.hash (Block.mine_step b) = Block.calculate_hash (Block.mine_step b).
Proof. reflexivity. Qed.

Lemma mine_step_nonce (b : Block.t) :
  Block.nonce (Block.mine_step b) = Block.nonce b + 1.
Proof. reflexivity. Qed.

Lemma mine_loop_unfold (fuel : nat) (d : Z) (i : nat) (b : Block.t) :
  Block.mine_loop fuel d i b =
  if negb (Block.meets_target d (Block.hash b)) then
    match fuel with
    | O => (Exhausted, b)
    | S fuel' => Block.mine_loop fuel' d (S i) (Block.mine_step b)
    end
  else (Returned i, b).
Proof. destruct fuel; reflexivity. Qed.

(** What a run of the loop that returns has done: [n - i] executions of the
    body, the last block being the first whose hash meets the target. *)
Lemma mine_loop_returned (fuel : nat) (d : Z) (i n : nat) (b b' : Block.t) :
  Block.mine_loop fuel d i b = (Returned n, b') ->
  exists k, n = (i + k)%nat /\ (k <= fuel)%nat
            /\ b' = Block.attempt k b
            /\ Block.meets_target d (Block.hash b') = true
            /\ forall j, (j < k)%nat ->
                 Block.meets_target d (Block.hash (Block.attempt j b)) = false.
Proof.
  revert i b. induction fuel as [|fuel IH]; intros i b; rewrite mine_loop_unfold;
    destruct (Block.meets_target d (Block.hash b)) eqn:E; simpl.
  - intros [= <- <-]. exists O. repeat split; first [lia | reflexivity | assumption | (intros; lia)].
  - discriminate.
  - intros [= <- <-]. exists O. repeat split; first [lia | reflexivity | assumption | (intros; lia)].
  - intros Hrun. apply IH in Hrun as (k & -> & Hk & -> & Hmeet & Hfirst).
    exists (S k). repeat split.
    + lia.
    + lia.
    + unfold Block.attempt. rewrite Nat.iter_succ_r. reflexivity.
    + exact Hmeet.
    + intros [|j] Hj; [exact E|].
      unfold Block.attempt. rewrite Nat.iter_succ_r. apply Hfirst. lia.
Qed.

(** Enough fuel: when the [k]-th attempt meets the target, the loop returns
    after [k] executions of the body at most. *)
Lemma mine_loop_terminates (k fuel : nat) (d : Z) (i : nat) (b : Block.t) :
  Block.meets_target d (Block.hash (Block.attempt k b)) = true ->
  (k <= fuel)%nat ->
  exists n b', (n <= k)%nat
               /\ Block.mine_loop fuel d i b = (Returned (i + n)%nat, b').
Proof.
  revert fuel i b. induction k as [|k IH]; intros fuel i b Hmeet Hfuel;
    rewrite mine_loop_unfold.
  - simpl in Hmeet. rewrite Hmeet. simpl. exists O, b.
    split; [lia | f_equal; f_equal; lia].
  - destruct (Block.meets_target d (Block.hash b)) eqn:E; simpl.
    + exists O, b. split; [lia | f_equal; f_equal; lia].
    + destruct fuel as [|fuel]; [lia|].
      unfold Block.attempt in Hmeet. rewrite Nat.iter_succ_r in Hmeet.
      destruct (IH fuel (S i) (Block.mine_step b) Hmeet ltac:(lia))
        as (n & b' & Hn & Hrun).
      exists (S n), b'. split; [lia|]. rewrite Hrun. f_equal. f_equal. lia.
Qed.

Lemma attempt_sealed (k : nat) (b : Block.t) :
  (0 < k)%nat ->
  Block.hash (Block.attempt k b) = Block.calculate_hash (Block.attempt k b).
Proof.
  destruct k as [|k]; [lia|]. intros _. unfold Block.attempt. simpl.
  apply mine_step_sealed.
Qed.

Lemma attempt_nonce (k : nat) (b : Block.t) :
  Block.nonce (Block.attempt k b) = Block.nonce b + Z.of_nat k.
Proof.
  induction k as [|k IH]; unfold Block.attempt in *.
  - simpl. lia.
  - rewrite Nat.iter_succ, mine_step_nonce, IH. lia.
Qed.

(** C8, amended: when [mine_block(d)] returns, with [d >= 0], the hash of the
    block has at least [d] leading ['0'] characters; it is the content hash of
    the block's attributes provided it was so when [mine_block] was called,
    as for every block the constructor built, or the loop body ran once at
    least. *)
Theorem mine_block_returned (fuel : nat) (d : Z) (b b' : Block.t) (n : nat) :
  0 <= d ->
  Block.mine_block fuel d b = (Returned n, b') ->
  d <= Z.of_nat (PyStr.leading_zeros (Block.hash b'))
  /\ (Block.hash b = Block.calculate_hash b \/ (0 < n)%nat ->
      Block.hash b' = Block.calculate_hash b').
Proof.
  intros Hd Hrun. unfold Block.mine_block in Hrun.
  apply mine_loop_returned in Hrun as (k & -> & _ & -> & Hmeet & _).
  split.
  - apply meets_target_leading_zeros; assumption.
  - destruct k as [|k].
    + intros [Hb|Hn]; [exact Hb | lia].
    + intros _. apply attempt_sealed. lia.
Qed.

(** C9: [mine_block(0)] returns at once: the loop body is executed zero
    times and the block, its nonce included, is as it was. *)
Theorem mine_block_difficulty_zero (fuel : nat) (b : Block.t) :
  Block.mine_block fuel 0 b = (Returned O, b)
  /\ Block.nonce (snd (Block.mine_block fuel 0 b)) = Block.nonce b.
Proof.
  unfold Block.mine_block. rewrite mine_loop_unfold.
  replace (Block.meets_target 0 (Block.hash b)) with true; [split; reflexivity|].
  symmetry. apply meets_target_leading_zeros; lia.
Qed.

End ProofOfWork.

(** The constructor leaves a block whose hash is its content hash. *)
Lemma init_sealed `{Hashlib} (index : Z) (transactions : list TxDict.t)
    (previous_hash : string) (nonce now : Z) :
  let b := Block.__init__ index transactions previous_hash nonce now in
  Block.hash b = Block.calculate_hash b.
Proof. reflexivity. Qed.

Lemma mine_block_returned_witness :
  0 <= 1
  /\ Block.mine_block (H := hashlib_sha256) 64 1 Demo.candidate
     = (Returned 6%nat, Demo.sealed)
  /\ 1 <= Z.of_nat (PyStr.leading_zeros (Block.hash Demo.sealed))
  /\ (Block.hash Demo.candidate
        = Block.calculate_hash (H := hashlib_sha256) Demo.candidate
      \/ (0 < 6)%nat ->
      Block.hash Demo.sealed
        = Block.calculate_hash (H := hashlib_sha256) Demo.sealed).
Proof.
  assert (Hrun : Block.mine_block (H := hashlib_sha256) 64 1 Demo.candidate
                 = (Returned 6%nat, Demo.sealed)) by (vm_compute; reflexivity).
  split; [lia|]. split; [exact Hrun|].
  apply (mine_block_returned (H := hashlib_sha256) 64 1
           Demo.candidate Demo.sealed 6); [lia | exact Hrun].
Defined.

(** C8 as stated fails on a block that was altered after it was sealed:
    its hash still starts with ['0'], the loop body is not executed, and the
    hash is not the content hash of the altered block. *)
Lemma mine_block_forged_counterexample :
  0 <= 1
  /\ Block.mine_block (H := hashlib_sha256) 64 1 Demo.forged
     = (Returned O, Demo.forged)
  /\ Block.hash Demo.forged
     <> Block.calculate_hash (H := hashlib_sha256) Demo.forged.
Proof.
  split; [lia|]. split; [vm_compute; reflexivity|].
  vm_compute. discriminate.
Qed.

(** ** Balances *)

Lemma balance_step_contribution (address : option string) (balance : Z)
    (d : TxDict.t) :
  Blockchain.balance_step address balance d
  = balance + Spec.contribution address d.
Proof.
  unfold Blockchain.balance_step, Spec.contribution.
  destruct (py_eq (TxDict.sender d) address),
           (py_eq (TxDict.recipient d) address); lia.
Qed.

Lemma inner_loop_sum (address : option string) (l : list TxDict.t) (balance : Z) :
  fold_left (Blockchain.balance_step address) l balance
  = balance + foldr Z.add 0 (map (Spec.contribution address) l).
Proof.
  revert balance. induction l as [|d l IH]; intros balance; simpl.
  - lia.
  - rewrite IH, balance_step_contribution. lia.
Qed.

Lemma sum_app (l1 l2 : list Z) :
  foldr Z.add 0 (l1 ++ l2) = foldr Z.add 0 l1 + foldr Z.add 0 l2.
Proof. induction l1 as [|x l1 IH]; simpl; lia. Qed.

Lemma outer_loop_sum (address : option string) (blocks : list Block.t)
    (balance : Z) :
  fold_left
    (fun balance block =>
       fold_left (Blockchain.balance_step address)
                 (Block.transactions block) balance)
    blocks balance
  = balance + Spec.balance blocks address.
Proof.
  unfold Spec.balance, Spec.records.
  revert balance. induction blocks as [|b blocks IH]; intros balance; simpl.
  - lia.
  - rewrite IH, inner_loop_sum, map_app, sum_app. lia.
Qed.


(** ** Submitting a transaction *)

Lemma add_transaction_run (self : Blockchain.t) (tx : Transaction.t) :
  Blockchain.add_transaction tx self
  = if negb (Transaction.is_valid tx)
       || (Blockchain.scan_balance (Blockchain.chain self)
                                   (Transaction.sender tx)
           <? Transaction.amount tx)%Z
    then (Returned false, self)
    else (Returned true, Blockchain.pending_append tx self).
Proof.
  unfold Blockchain.add_transaction.
  destruct (Transaction.is_valid tx); simpl; [|reflexivity].
  unfold bind, Blockchain.get_balance, gets.
  destruct (_ <? _)%Z; reflexivity.
Qed.






(** ** Mining a block *)

Lemma linkage_snoc (blocks : list Block.t) (latest b : Block.t) :
  Spec.linkage blocks ->
  last blocks = Some latest ->
  Block.previous_hash b = Block.hash latest ->
  Spec.linkage (blocks ++ [b]).
Proof.
  intros (Hne & Hgen & Hlink) Hlast Hb. repeat split.
  - destruct blocks; discriminate.
  - intros g Hg. apply Hgen.
    destruct blocks as [|g' blocks]; [congruence | exact Hg].
  - intros i current previous Hi Hcur Hprev.
    rewrite last_lookup in Hlast.
    destruct (Nat.lt_total i (length blocks)) as [Hlt|[->|Hgt]].
    + rewrite lookup_app_l in Hcur by lia.
      rewrite lookup_app_l in Hprev by lia.
      eapply Hlink; eassumption.
    + rewrite lookup_app_r in Hcur by lia.
      rewrite Nat.sub_diag in Hcur. injection Hcur as <-.
      rewrite lookup_app_l in Hprev by lia.
      replace (length blocks - 1)%nat with (pred (length blocks)) in Hprev by lia.
      congruence.
    + apply lookup_lt_Some in Hcur. rewrite length_app in Hcur. simpl in Hcur. lia.
Qed.

Section Mining.
Context `{Hashlib}.

Lemma attempt_fields (k : nat) (b : Block.t) :
  Block.index (Block.attempt k b) = Block.index b
  /\ Block.timestamp (Block.attempt k b) = Block.timestamp b
  /\ Block.transactions (Block.attempt k b) = Block.transactions b
  /\ Block.previous_hash (Block.attempt k b) = Block.previous_hash b.
Proof.
  induction k as [|k IH]; [repeat split|].
  unfold Block.attempt in *. rewrite Nat.iter_succ. exact IH.
Qed.

Lemma mine_pending_transactions_run (fuel : nat) (self : Blockchain.t)
    (latest : Block.t) (address : option string) (t_reward t_block : Z) :
  last (Blockchain.chain self) = Some latest ->
  Blockchain.mine_pending_transactions fuel address t_reward t_block self
  = match Block.mine_block fuel (Blockchain.difficulty self)
            (Blockchain.new_block self latest address t_reward t_block) with
    | (Returned _, b) =>
        (Returned tt,
         {| Blockchain.chain := Blockchain.chain self ++ [b];
            Blockchain.difficulty := Blockchain.difficulty self;
            Blockchain.pending_transactions := [];
            Blockchain.mining_reward := Blockchain.mining_reward self |})
    | (Raised e, _) =>
        (Raised e,
         Blockchain.pending_append
           (Transaction.__init__ None address
              (Blockchain.mining_reward self) t_reward) self)
    | (Exhausted, _) =>
        (Exhausted,
         Blockchain.pending_append
           (Transaction.__init__ None address
              (Blockchain.mining_reward self) t_reward) self)
    end.
Proof.
  intros Hlast.
  unfold Blockchain.mine_pending_transactions, bind, gets, modify,
    Blockchain.get_latest_block, Blockchain.on_local, Blockchain.new_block.
  simpl. rewrite Hlast.
  destruct (Block.mine_block _ _ _) as [[n|e|] b]; reflexivity.
Qed.


(** C3: the linkage invariant holds for the chain the constructor builds,
    and every public operation preserves it, in whatever state the operation
    leaves the chain object. *)
Theorem linkage_invariant :
  (forall difficulty t_record t_block : Z,
      Spec.linkage
        (Blockchain.chain (Blockchain.__init__ difficulty t_record t_block)))
  /\ (forall self : Blockchain.t,
        Spec.linkage (Blockchain.chain self) ->
        (forall tx,
            Spec.linkage
              (Blockchain.chain (snd (Blockchain.add_transaction tx self))))
        /\ (forall fuel address t_reward t_block,
              Spec.linkage
                (Blockchain.chain
                   (snd (Blockchain.mine_pending_transactions
                           fuel address t_reward t_block self))))
        /\ (forall address,
              Spec.linkage
                (Blockchain.chain (snd (Blockchain.get_balance address self))))
        /\ Spec.linkage
             (Blockchain.chain (snd (Blockchain.is_chain_valid self)))
        /\ Spec.linkage
             (Blockchain.chain (snd (Blockchain.get_latest_block self)))
        /\ Spec.linkage
             (Blockchain.chain (snd (Blockchain.get_chain_info self)))).
Proof.
  split.
  - intros difficulty t_record t_block. repeat split.
    + discriminate.
    + intros b [= <-]. reflexivity.
    + intros [|[|i]] current previous Hi Hcur Hprev; try lia; discriminate.
  - intros self Hinv.
    split; [|split; [|split; [|split; [|split]]]]; try exact Hinv.
    + intros tx. rewrite add_transaction_run.
      destruct (_ || _); apply Hinv.
    + intros fuel address t_reward t_block.
      destruct (last (Blockchain.chain self)) as [latest|] eqn:Hlast.
      * rewrite (mine_pending_transactions_run _ _ _ _ _ _ Hlast).
        destruct (Block.mine_block _ _ _) as [[n|e|] b] eqn:Hrun;
          simpl; try apply Hinv.
        apply (linkage_snoc _ latest); [exact Hinv | exact Hlast |].
        unfold Block.mine_block in Hrun.
        apply mine_loop_returned in Hrun as (k & _ & _ & -> & _ & _).
        destruct (attempt_fields k
                    (Blockchain.new_block self latest address t_reward t_block))
          as (_ & _ & _ & ->).
        reflexivity.
      * apply last_None in Hlast. destruct Hinv as (Hne & _). contradiction.
    + intros address. exact Hinv.
    + unfold Blockchain.get_latest_block.
      destruct (last (Blockchain.chain self)); exact Hinv.
Qed.

End Mining.


Lemma linkage_invariant_witness :
  Spec.linkage (Blockchain.chain Demo.fresh)
  /\ Spec.linkage (Blockchain.chain (snd Demo.mined)).
Proof.
  destruct (linkage_invariant (H := hashlib_sha256)) as [Hinit Hkept].
  assert (Hfresh : Spec.linkage (Blockchain.chain Demo.fresh))
    by apply Hinit.
  split; [exact Hfresh|].
  destruct (Hkept Demo.fresh Hfresh) as (_ & Hmine & _).
  exact (Hmine 64%nat (Some "Miner1") 1700000003 1700000004).
Defined.

(** ** [json.dumps] loses nothing *)

Lemma unescape_escape_char (c : ascii) (r : list ascii) :
  unescape_char (escape_char c ++ r) = Some (c, r).
Proof. destruct c as [[] [] [] [] [] [] [] []]; reflexivity. Qed.

(** An escaped string ends at the first quote that is not escaped. *)
Lemma escape_inj (s1 s2 : string) (r1 r2 : list ascii) :
  escape s1 ++ quote :: r1 = escape s2 ++ quote :: r2 ->
  s1 = s2 /\ r1 = r2.
Proof.
  revert s2. induction s1 as [|c1 s1 IH]; intros [|c2 s2]; simpl; intros Heq.
  - injection Heq as ->. split; reflexivity.
  - apply (f_equal unescape_char) in Heq.
    rewrite <- app_assoc, unescape_escape_char in Heq. discriminate.
  - apply (f_equal unescape_char) in Heq.
    rewrite <- app_assoc, unescape_escape_char in Heq. discriminate.
  - apply (f_equal unescape_char) in Heq.
    rewrite <- !app_assoc, !unescape_escape_char in Heq.
    injection Heq as -> Heq. apply IH in Heq as [-> ->]. split; reflexivity.
Qed.

Lemma chars_inj (s1 s2 : string) : chars s1 = chars s2 -> s1 = s2.
Proof.
  intros Heq. apply (f_equal string_of_list_ascii) in Heq.
  unfold chars in Heq. rewrite !string_of_list_ascii_of_string in Heq.
  exact Heq.
Qed.

(** A run of digits ends where the digits end. *)
Lemma digits_then (l1 l2 r1 r2 : list ascii) :
  Forall (fun c => is_digit c = true) l1 ->
  Forall (fun c => is_digit c = true) l2 ->
  no_digit_ahead r1 = true ->
  no_digit_ahead r2 = true ->
  l1 ++ r1 = l2 ++ r2 ->
  l1 = l2 /\ r1 = r2.
Proof.
  intros H1. revert l2. induction H1 as [|c1 l1 Hc1 _ IH];
    intros l2 H2 Hr1 Hr2 Heq; destruct H2 as [|c2 l2 Hc2 H2]; simpl in Heq.
  - split; [reflexivity | exact Heq].
  - subst r1. simpl in Hr1. rewrite Hc2 in Hr1. discriminate.
  - subst r2. simpl in Hr2. rewrite Hc1 in Hr2. discriminate.
  - injection Heq as -> Heq.
    destruct (IH l2 H2 Hr1 Hr2 Heq) as [-> ->]. split; reflexivity.
Qed.

Lemma uint_digits (d : Decimal.uint) :
  Forall (fun c => is_digit c = true) (chars (NilEmpty.string_of_uint d)).
Proof. induction d; simpl; constructor; auto. Qed.

Lemma uint_head (d : Decimal.uint) :
  d <> Decimal.Nil ->
  exists c l, chars (NilEmpty.string_of_uint d) = c :: l /\ is_digit c = true.
Proof.
  destruct d; [congruence|..]; intros _; simpl; eexists _, _; split;
    reflexivity.
Qed.

Lemma to_int_cases (n : Z) :
  exists d, d <> Decimal.Nil
            /\ (Z.to_int n = Decimal.Pos d \/ Z.to_int n = Decimal.Neg d).
Proof.
  destruct n as [|p|p]; simpl.
  - exists (Decimal.D0 Decimal.Nil). split; [discriminate | left; reflexivity].
  - exists (Pos.to_uint p). split; [apply Unsigned.to_uint_nonnil | left; reflexivity].
  - exists (Pos.to_uint p). split; [apply Unsigned.to_uint_nonnil | right; reflexivity].
Qed.

Lemma uint_chars_inj (d1 d2 : Decimal.uint) :
  chars (NilEmpty.string_of_uint d1) = chars (NilEmpty.string_of_uint d2) ->
  d1 = d2.
Proof.
  intros Heq. apply chars_inj in Heq.
  apply (f_equal NilEmpty.uint_of_string) in Heq.
  rewrite !NilEmpty.usu in Heq. congruence.
Qed.

Lemma to_int_inj (n1 n2 : Z) : Z.to_int n1 = Z.to_int n2 -> n1 = n2.
Proof.
  intros Heq. apply (f_equal Z.of_int) in Heq.
  rewrite !DecimalZ.of_to in Heq. exact Heq.
Qed.

(** An integer ends where its digits end. *)
Lemma encode_int_inj (n1 n2 : Z) (r1 r2 : list ascii) :
  encode_int n1 ++ r1 = encode_int n2 ++ r2 ->
  no_digit_ahead r1 = true ->
  no_digit_ahead r2 = true ->
  n1 = n2 /\ r1 = r2.
Proof.
  unfold encode_int. intros Heq Hr1 Hr2.
  destruct (to_int_cases n1) as (d1 & Hd1 & [E1|E1]),
           (to_int_cases n2) as (d2 & Hd2 & [E2|E2]);
    rewrite E1, E2 in Heq; simpl in Heq.
  - apply digits_then in Heq as [Heq ->]; auto using uint_digits.
    apply uint_chars_inj in Heq as ->.
    split; [apply to_int_inj; congruence | reflexivity].
  - destruct (uint_head d1 Hd1) as (c & l & Hc & Hdigit).
    rewrite Hc in Heq. injection Heq as -> _. discriminate.
  - destruct (uint_head d2 Hd2) as (c & l & Hc & Hdigit).
    rewrite Hc in Heq. injection Heq as <- _. discriminate.
  - injection Heq as Heq.
    apply digits_then in Heq as [Heq ->]; auto using uint_digits.
    apply uint_chars_inj in Heq as ->.
    split; [apply to_int_inj; congruence | reflexivity].
Qed.

Lemma digit_head_kind (c : ascii) (l : list ascii) :
  is_digit c = true -> head_kind (c :: l) = Some KInt.
Proof.
  destruct c as [[] [] [] [] [] [] [] []]; simpl; intros Hc;
    try discriminate Hc; reflexivity.
Qed.

(** The first character of an encoding tells the kind of the value. *)
Lemma head_kind_encode (j : json) (r : list ascii) :
  head_kind (encode j ++ r) = Some (kind_of j).
Proof.
  destruct j as [|n|s|items|members]; try reflexivity.
  simpl. unfold encode_int.
  destruct (to_int_cases n) as (d & Hd & [E|E]); rewrite E; simpl.
  - destruct (uint_head d Hd) as (c & l & -> & Hdigit).
    apply digit_head_kind. exact Hdigit.
  - reflexivity.
Qed.

Lemma join_items_cons (e : list ascii) (es : list (list ascii))
    (t : list ascii) :
  join_items (e :: es) ++ t
  = e ++ match es with
         | [] => t
         | _ :: _ => ","%char :: " "%char :: join_items es ++ t
         end.
Proof. destruct es; simpl; rewrite <- ?app_assoc; reflexivity. Qed.

Section Join.
Variables (A : Type) (enc : A -> list ascii) (close : ascii).
Hypothesis close_not_digit : is_digit close = false.
Hypothesis close_not_comma : close <> ","%char.
Hypothesis enc_not_close : forall x r r', enc x ++ r <> close :: r'.

(** Items that are told apart from what follows them are told apart when
    joined and closed. *)
Lemma join_items_inj (l1 : list A) :
  Forall (fun x => forall y r1 r2,
              enc x ++ r1 = enc y ++ r2 ->
              no_digit_ahead r1 = true -> no_digit_ahead r2 = true ->
              x = y /\ r1 = r2) l1 ->
  forall l2 r1 r2,
    join_items (map enc l1) ++ close :: r1
    = join_items (map enc l2) ++ close :: r2 ->
    l1 = l2 /\ r1 = r2.
Proof.
  induction 1 as [|x l1 Hx _ IH]; intros [|y l2] r1 r2 Heq.
  - injection Heq as ->. split; reflexivity.
  - simpl map in Heq. rewrite join_items_cons in Heq. simpl in Heq.
    symmetry in Heq. apply enc_not_close in Heq. contradiction.
  - simpl map in Heq. rewrite join_items_cons in Heq. simpl in Heq.
    apply enc_not_close in Heq. contradiction.
  - simpl map in Heq. rewrite !join_items_cons in Heq.
    apply Hx in Heq as [<- Heq].
    + destruct l1 as [|x1 l1], l2 as [|y1 l2]; simpl map in Heq.
      * injection Heq as ->. split; reflexivity.
      * injection Heq as Hc _. contradiction.
      * injection Heq as Hc _. symmetry in Hc. contradiction.
      * injection Heq as Heq.
        change (join_items (map enc (x1 :: l1)) ++ close :: r1
                = join_items (map enc (y1 :: l2)) ++ close :: r2) in Heq.
        apply IH in Heq as [-> ->]. split; reflexivity.
    + destruct (map enc l1); simpl; [rewrite close_not_digit|]; reflexivity.
    + destruct (map enc l2); simpl; [rewrite close_not_digit|]; reflexivity.
Qed.

End Join.

Lemma json_induction (P : json -> Prop) :
  P JNull ->
  (forall n, P (JInt n)) ->
  (forall s, P (JStr s)) ->
  (forall items, Forall P items -> P (JList items)) ->
  (forall members, Forall (fun kv => P (snd kv)) members -> P (JDict members)) ->
  forall j, P j.
Proof.
  intros Hnull Hint Hstr Hlist Hdict. fix IH 1.
  intros [|n|s|items|members].
  - exact Hnull.
  - apply Hint.
  - apply Hstr.
  - apply Hlist. induction items as [|x items IHitems]; constructor.
    + apply IH.
    + exact IHitems.
  - apply Hdict. induction members as [|[k v] members IHmembers]; constructor.
    + apply IH.
    + exact IHmembers.
Qed.

(** [encode] is injective, also in front of any text that does not go on
    with a digit. *)
Lemma encode_inj_then (j : json) :
  forall j' r1 r2,
    encode j ++ r1 = encode j' ++ r2 ->
    no_digit_ahead r1 = true -> no_digit_ahead r2 = true ->
    j = j' /\ r1 = r2.
Proof.
  induction j as [|n|s|items IH|members IH] using json_induction;
    intros j' r1 r2 Heq Hr1 Hr2;
    assert (Hkind : Some (kind_of j') = head_kind (encode j' ++ r2))
      by (symmetry; apply head_kind_encode);
    rewrite <- Heq, head_kind_encode in Hkind;
    destruct j' as [|n'|s'|items'|members']; try discriminate Hkind;
    clear Hkind.
  - injection Heq as ->. split; reflexivity.
  - apply encode_int_inj in Heq as [-> ->]; auto.
  - unfold encode, encode_basestring_ascii in Heq.
    rewrite <- !app_assoc in Heq. simpl in Heq. injection Heq as Heq.
    apply escape_inj in Heq as [-> ->]. split; reflexivity.
  - simpl in Heq. injection Heq as Heq. rewrite <- !app_assoc in Heq.
    simpl in Heq.
    apply (join_items_inj json encode "]"%char) in Heq as [-> ->];
      [split; reflexivity | reflexivity | discriminate | | exact IH].
    intros x r r' Hx. apply (f_equal head_kind) in Hx.
    rewrite head_kind_encode in Hx. discriminate.
  - simpl in Heq. injection Heq as Heq. rewrite <- !app_assoc in Heq.
    simpl in Heq.
    apply (join_items_inj (string * json) _ "}"%char) in Heq as [-> ->];
      [split; reflexivity | reflexivity | discriminate | |].
    + intros [k v] r r'. discriminate.
    + eapply Forall_impl; [exact IH|].
      intros [k v] Hv [k' v'] t1 t2 Hkv Ht1 Ht2. simpl in Hv.
      unfold encode_basestring_ascii in Hkv.
      rewrite <- !app_assoc in Hkv. simpl in Hkv. injection Hkv as Hkv.
      rewrite <- !app_assoc in Hkv. simpl in Hkv.
      apply escape_inj in Hkv as [-> Hkv]. injection Hkv as Hkv.
      apply Hv in Hkv as [-> ->]; auto.
Qed.

Lemma encode_inj (j j' : json) : encode j = encode j' -> j = j'.
Proof.
  intros Heq. apply (encode_inj_then j j' [] []); [|reflexivity..].
  rewrite !app_nil_r. exact Heq.
Qed.

Lemma dumps_sorted_inj (j j' : json) :
  dumps_sorted j = dumps_sorted j' -> sort_keys j = sort_keys j'.
Proof.
  unfold dumps_sorted. intros Heq.
  apply (f_equal list_ascii_of_string) in Heq.
  rewrite !list_ascii_of_string_of_list_ascii in Heq.
  apply encode_inj. exact Heq.
Qed.

Lemma of_option_inj (o1 o2 : option string) :
  of_option o1 = of_option o2 -> o1 = o2.
Proof. destruct o1, o2; simpl; congruence. Qed.

(** The dictionary of a transaction with its keys in order. *)
Lemma sort_keys_to_json (d : TxDict.t) :
  sort_keys (TxDict.to_json d)
  = JDict ([("amount", JInt (TxDict.amount d))]
           ++ match TxDict.hash d with
              | Some h => [("hash", JStr h)]
              | None => []
              end
           ++ [("recipient", of_option (TxDict.recipient d));
               ("sender", of_option (TxDict.sender d));
               ("timestamp", JInt (TxDict.timestamp d))]).
Proof. destruct d as [[s|] [r|] a t [h|]]; reflexivity. Qed.

Lemma to_json_inj (d1 d2 : TxDict.t) :
  sort_keys (TxDict.to_json d1) = sort_keys (TxDict.to_json d2) -> d1 = d2.
Proof.
  rewrite !sort_keys_to_json.
  destruct d1 as [s1 r1 a1 t1 [h1|]], d2 as [s2 r2 a2 t2 [h2|]]; simpl;
    intros Heq; try discriminate Heq; injection Heq; intros;
    repeat match goal with
           | E : of_option _ = of_option _ |- _ => apply of_option_inj in E
           end; congruence.
Qed.

Lemma map_to_json_inj (l1 l2 : list TxDict.t) :
  map sort_keys (map TxDict.to_json l1) = map sort_keys (map TxDict.to_json l2) ->
  l1 = l2.
Proof.
  revert l2. induction l1 as [|d1 l1 IH]; intros [|d2 l2] Heq;
    try discriminate Heq; [reflexivity|].
  change (sort_keys (TxDict.to_json d1)
            :: map sort_keys (map TxDict.to_json l1)
          = sort_keys (TxDict.to_json d2)
              :: map sort_keys (map TxDict.to_json l2)) in Heq.
  assert (Hd : sort_keys (TxDict.to_json d1) = sort_keys (TxDict.to_json d2))
    by congruence.
  assert (Hl : map sort_keys (map TxDict.to_json l1)
               = map sort_keys (map TxDict.to_json l2)) by congruence.
  apply to_json_inj in Hd as ->. apply IH in Hl as ->. reflexivity.
Qed.

Section Tampering.
Context `{Hashlib}.

(** The text a block is hashed from tells all its attributes. *)
Lemma block_string_inj (b1 b2 : Block.t) :
  Block.block_string b1 = Block.block_string b2 ->
  Block.index b1 = Block.index b2
  /\ Block.timestamp b1 = Block.timestamp b2
  /\ Block.transactions b1 = Block.transactions b2
  /\ Block.previous_hash b1 = Block.previous_hash b2
  /\ Block.nonce b1 = Block.nonce b2.
Proof.
  unfold Block.block_string. intros Heq. apply dumps_sorted_inj in Heq.
  change (JDict [("index", JInt (Block.index b1));
                 ("nonce", JInt (Block.nonce b1));
                 ("previous_hash", JStr (Block.previous_hash b1));
                 ("timestamp", JInt (Block.timestamp b1));
                 ("transactions",
                  JList (map sort_keys
                             (map TxDict.to_json (Block.transactions b1))))]
          = JDict [("index", JInt (Block.index b2));
                   ("nonce", JInt (Block.nonce b2));
                   ("previous_hash", JStr (Block.previous_hash b2));
                   ("timestamp", JInt (Block.timestamp b2));
                   ("transactions",
                    JList (map sort_keys
                               (map TxDict.to_json (Block.transactions b2))))])
    in Heq.
  injection Heq as Hi Hn Hp Ht Htx. apply map_to_json_inj in Htx.
  repeat split; assumption.
Qed.

Lemma check_from_app (d : Z) (k : nat) (previous : Block.t)
    (l1 : list Block.t) (current : Block.t) (l2 : list Block.t) :
  Blockchain.check_from d k previous (l1 ++ current :: l2)
  = match Blockchain.check_from d k previous l1 with
    | Some f => Some f
    | None =>
        match Blockchain.check_block d current (default previous (last l1)) with
        | Some f => Some ((k + length l1)%nat, f)
        | None => Blockchain.check_from d (S (k + length l1)) current l2
        end
    end.
Proof.
  revert k previous. induction l1 as [|b l1 IH]; intros k previous; simpl.
  - rewrite Nat.add_0_r. reflexivity.
  - destruct (Blockchain.check_block d b previous); [reflexivity|].
    rewrite IH, last_cons, Nat.add_succ_r.
    destruct (last l1); reflexivity.
Qed.

(** The loop of [is_chain_valid] in terms of the indices it visits:
    it finds no failure exactly when every [chain[i]], [i >= 1], passes the
    three tests against [chain[i - 1]]. *)
Lemma check_from_none (d : Z) (k : nat) (previous : Block.t)
    (rest : list Block.t) :
  Blockchain.check_from d k previous rest = None
  <-> forall i current before,
        (previous :: rest) !! S i = Some current ->
        (previous :: rest) !! i = Some before ->
        Blockchain.check_block d current before = None.
Proof.
  revert k previous. induction rest as [|b rest IH]; intros k previous; simpl.
  - split; [intros _ i current before Hcur; discriminate Hcur | reflexivity].
  - destruct (Blockchain.check_block d b previous) eqn:E.
    + split; [discriminate|]. intros Hall.
      rewrite (Hall O b previous eq_refl eq_refl) in E. discriminate.
    + rewrite IH. split.
      * intros Hall [|i] current before Hcur Hbefore.
        -- injection Hcur as <-. injection Hbefore as <-. exact E.
        -- exact (Hall i current before Hcur Hbefore).
      * intros Hall i current before Hcur Hbefore.
        exact (Hall (S i) current before Hcur Hbefore).
Qed.

Lemma is_chain_valid_indexed (self : Blockchain.t) :
  Blockchain.is_chain_valid self = (Returned true, self)
  <-> forall i current before,
        (1 <= i)%nat ->
        Blockchain.chain self !! i = Some current ->
        Blockchain.chain self !! (i - 1)%nat = Some before ->
        Blockchain.check_block (Blockchain.difficulty self) current before
        = None.
Proof.
  unfold Blockchain.is_chain_valid, gets, Blockchain.first_failure.
  destruct (Blockchain.chain self) as [|genesis rest].
  - split; [intros _ i current before _ Hcur; discriminate Hcur | reflexivity].
  - pose proof (check_from_none (Blockchain.difficulty self) 1 genesis rest)
      as Hloop.
    destruct (Blockchain.check_from _ _ _ _).
    + split; [discriminate|]. intros Hall.
      assert (Hnone : Some p = None); [|discriminate Hnone].
      apply Hloop. intros i current before Hcur Hbefore.
      apply (Hall (S i)); [lia | exact Hcur |].
      simpl. rewrite Nat.sub_0_r. exact Hbefore.
    + split; [|reflexivity]. intros _ [|i] current before Hi Hcur Hbefore;
        [lia|].
      simpl in Hbefore. rewrite Nat.sub_0_r in Hbefore.
      apply (proj1 Hloop eq_refl i); assumption.
Qed.


End Tampering.


(** * Further properties of the code *)

(** ** The difficulty test *)

Lemma take_prefix (n : nat) (h : string) :
  String.prefix (PyStr.take n h) h = true.
Proof.
  revert h. induction n as [|n IH]; intros [|c h]; simpl; try reflexivity.
  destruct (ascii_dec c c); [apply IH | congruence].
Qed.

Lemma prefix_take (p h : string) :
  String.prefix p h = true -> PyStr.take (String.length p) h = p.
Proof.
  revert h. induction p as [|c p IH]; intros [|c' h]; simpl;
    try reflexivity; try discriminate.
  destruct (ascii_dec c c') as [<-|]; [|discriminate].
  intros Hp. rewrite (IH h Hp). reflexivity.
Qed.

Lemma length_replicate (n : nat) (c : ascii) :
  String.length (PyStr.replicate n c) = n.
Proof. induction n; simpl; congruence. Qed.

(** The exit test of [mine_block] implies the test of [is_chain_valid], for
    every difficulty. *)
Lemma meets_target_startswith (d : Z) (h : string) :
  Block.meets_target d h = true ->
  PyStr.startswith h (PyStr.repeat "0" d) = true.
Proof.
  unfold Block.meets_target, PyStr.startswith, PyStr.slice_to, PyStr.repeat.
  rewrite String.eqb_eq. destruct (Z.leb_spec 0 d).
  - intros <-. apply take_prefix.
  - intros _. replace (Z.to_nat d) with O by lia. destruct h; reflexivity.
Qed.

(** For a difficulty that is not negative the two tests are the same. *)
Lemma startswith_meets_target (d : Z) (h : string) :
  0 <= d ->
  PyStr.startswith h (PyStr.repeat "0" d) = true ->
  Block.meets_target d h = true.
Proof.
  unfold Block.meets_target, PyStr.startswith, PyStr.slice_to, PyStr.repeat.
  intros Hd Hp. destruct (Z.leb_spec 0 d); [|lia].
  apply prefix_take in Hp. rewrite length_replicate in Hp.
  rewrite Hp. apply String.eqb_refl.
Qed.

(** ** The latest block *)

Lemma mine_pending_transactions_empty `{Hashlib} (fuel : nat)
    (self : Blockchain.t) (address : option string) (t_reward t_block : Z) :
  Blockchain.chain self = [] ->
  Blockchain.mine_pending_transactions fuel address t_reward t_block self
  = (Raised IndexError,
     Blockchain.pending_append
       (Transaction.__init__ None address
          (Blockchain.mining_reward self) t_reward) self).
Proof.
  intros Hchain.
  unfold Blockchain.mine_pending_transactions, bind, gets, modify,
    Blockchain.get_latest_block.
  simpl. rewrite Hchain. reflexivity.
Qed.


(** X2: a call of [mine_pending_transactions] that does not return leaves
    the chain as it was, but the reward transaction in the pending pool; it
    raises [IndexError] exactly when the chain is empty. *)
Theorem mine_pending_transactions_not_returned `{Hashlib} (fuel : nat)
    (self self' : Blockchain.t) (address : option string)
    (t_reward t_block : Z) (out : outcome unit) :
  Blockchain.mine_pending_transactions fuel address t_reward t_block self
  = (out, self') ->
  out <> Returned tt ->
  Blockchain.chain self' = Blockchain.chain self
  /\ Blockchain.pending_transactions self'
     = Blockchain.pending_transactions self
       ++ [Transaction.__init__ None address
             (Blockchain.mining_reward self) t_reward]
  /\ (out = Raised IndexError <-> Blockchain.chain self = []).
Proof.
  intros Hrun Hout.
  destruct (last (Blockchain.chain self)) as [latest|] eqn:Hlast.
  - rewrite (mine_pending_transactions_run _ _ _ _ _ _ Hlast) in Hrun.
    assert (Hne : Blockchain.chain self <> [])
      by (intros E; rewrite E in Hlast; discriminate).
    unfold Block.mine_block in Hrun.
    destruct (Block.mine_loop _ _ _ _) as [[n|e|] b] eqn:Hloop.
    + injection Hrun as <- <-. congruence.
    + exfalso. clear Hrun.
      assert (Hno : forall fuel' d i b0 e' b1,
                 Block.mine_loop fuel' d i b0 <> (Raised e', b1)).
      { induction fuel' as [|fuel' IH]; intros d i b0 e' b1;
          rewrite mine_loop_unfold;
          destruct (Block.meets_target d (Block.hash b0)); simpl;
          try discriminate. apply IH. }
      exact (Hno _ _ _ _ _ _ Hloop).
    + injection Hrun as <- <-. repeat split; try discriminate.
      intros E. contradiction.
  - apply last_None in Hlast.
    rewrite (mine_pending_transactions_empty _ _ _ _ _ Hlast) in Hrun.
    injection Hrun as <- <-. repeat split; auto.
Qed.

Lemma mine_pending_transactions_not_returned_witness :
  Blockchain.mine_pending_transactions (H := hashlib_sha256) 2 (Some "Miner1")
    1700000003 1700000004 Demo.fresh
  = (Exhausted,
     Blockchain.pending_append
       (Transaction.__init__ None (Some "Miner1") 100 1700000003) Demo.fresh)
  /\ Blockchain.chain
       (Blockchain.pending_append
          (Transaction.__init__ None (Some "Miner1") 100 1700000003)
          Demo.fresh)
     = Blockchain.chain Demo.fresh.
Proof.
  assert (Hrun : Blockchain.mine_pending_transactions (H := hashlib_sha256) 2
                   (Some "Miner1") 1700000003 1700000004 Demo.fresh
                 = (Exhausted,
                    Blockchain.pending_append
                      (Transaction.__init__ None (Some "Miner1") 100
                         1700000003) Demo.fresh))
    by (vm_compute; reflexivity).
  split; [exact Hrun|].
  exact (proj1 (mine_pending_transactions_not_returned (H := hashlib_sha256)
                  _ _ _ _ _ _ _ Hrun ltac:(discriminate))).
Defined.

(** ** Chains built by the methods pass [is_chain_valid] *)

Section Honest.
Context `{Hashlib}.

(** A block whose hash is its content hash, that is linked to the block
    before it and whose hash met the target of [mine_block], passes the
    three tests. *)
Lemma check_block_sealed (d : Z) (b before : Block.t) :
  Block.hash b = Block.calculate_hash b ->
  Block.previous_hash b = Block.hash before ->
  Block.meets_target d (Block.hash b) = true ->
  Blockchain.check_block d b before = None.
Proof.
  intros Hsealed Hlink Hmeets. unfold Blockchain.check_block.
  rewrite <- Hsealed, <- Hlink, !String.eqb_refl. simpl.
  rewrite (meets_target_startswith _ _ Hmeets). reflexivity.
Qed.

(** What a block that [mine_block] returns from a fresh block is. *)
Lemma mined_block_sealed (fuel : nat) (d : Z) (index : Z)
    (transactions : list TxDict.t) (previous_hash : string) (now : Z)
    (n : nat) (b : Block.t) :
  Block.mine_block fuel d
    (Block.__init__ index transactions previous_hash 0 now)
  = (Returned n, b) ->
  Block.hash b = Block.calculate_hash b
  /\ Block.previous_hash b = previous_hash
  /\ Block.meets_target d (Block.hash b) = true.
Proof.
  unfold Block.mine_block. intros Hrun.
  apply mine_loop_returned in Hrun as (k & _ & _ & -> & Hmeets & _).
  destruct (attempt_fields k
              (Block.__init__ index transactions previous_hash 0 now))
    as (_ & _ & _ & ->).
  split; [|split; [reflexivity | exact Hmeets]].
  destruct k as [|k]; [reflexivity | apply attempt_sealed; lia].
Qed.

Lemma perform_keeps_valid (c : Session.call) (s s' : Blockchain.t) :
  Blockchain.first_failure s = None ->
  Session.perform c s = (Returned tt, s') ->
  Blockchain.first_failure s' = None
  /\ Blockchain.difficulty s' = Blockchain.difficulty s
  /\ length (Blockchain.chain s')
     = (length (Blockchain.chain s) + Session.mined_blocks [c])%nat.
Proof.
  intros Hvalid Hrun. destruct c as [tx|fuel address t_reward t_block];
    simpl in Hrun.
  - unfold bind in Hrun. rewrite add_transaction_run in Hrun.
    destruct (_ || _); injection Hrun as <-;
      (split; [exact Hvalid | split; [reflexivity | simpl; lia]]).
  - destruct (last (Blockchain.chain s)) as [latest|] eqn:Hlast.
    + rewrite (mine_pending_transactions_run _ _ _ _ _ _ Hlast) in Hrun.
      destruct (Block.mine_block _ _ _) as [[n|e|] b] eqn:Hmine;
        try discriminate Hrun.
      injection Hrun as <-. simpl.
      apply mined_block_sealed in Hmine as (Hsealed & Hlink & Hmeets).
      split; [|split; [reflexivity | rewrite length_app; simpl; lia]].
      unfold Blockchain.first_failure in *. simpl.
      destruct (Blockchain.chain s) as [|genesis rest]; [discriminate|].
      simpl. rewrite check_from_app, Hvalid.
      rewrite check_block_sealed; [reflexivity | exact Hsealed | | exact Hmeets].
      rewrite Hlink. f_equal. rewrite last_cons in Hlast.
      destruct (last rest); simpl; congruence.
    + apply last_None in Hlast.
      rewrite (mine_pending_transactions_empty _ _ _ _ _ Hlast) in Hrun.
      discriminate.
Qed.

Lemma run_keeps_valid (calls : list Session.call) (s s' : Blockchain.t) :
  Blockchain.first_failure s = None ->
  Session.run calls s = (Returned tt, s') ->
  Blockchain.first_failure s' = None
  /\ Blockchain.difficulty s' = Blockchain.difficulty s
  /\ length (Blockchain.chain s')
     = (length (Blockchain.chain s) + Session.mined_blocks calls)%nat.
Proof.
  revert s. induction calls as [|c calls IH]; intros s Hvalid Hrun.
  - injection Hrun as <-. split; [exact Hvalid | split; [reflexivity | simpl; lia]].
  - simpl in Hrun. unfold bind in Hrun.
    destruct (Session.perform c s) as [[[]|e|] s1] eqn:Hc;
      try discriminate Hrun.
    destruct (perform_keeps_valid c s s1 Hvalid Hc) as (Hv1 & Hd1 & Hl1).
    destruct (IH s1 Hv1 Hrun) as (Hv & Hd & Hl).
    split; [exact Hv | split; [congruence|]].
    rewrite Hl, Hl1. destruct c; simpl; lia.
Qed.

(** X3: every chain obtained from [Blockchain(difficulty)] by calls of
    [add_transaction] and [mine_pending_transactions] that have all returned
    passes [is_chain_valid], whatever the difficulty; it has one block per
    call of [mine_pending_transactions] besides the genesis block. *)
Theorem session_chain_valid (difficulty t_record t_block : Z)
    (calls : list Session.call) (s : Blockchain.t) :
  Session.run calls (Blockchain.__init__ difficulty t_record t_block)
  = (Returned tt, s) ->
  Blockchain.is_chain_valid s = (Returned true, s)
  /\ Blockchain.difficulty s = difficulty
  /\ length (Blockchain.chain s) = S (Session.mined_blocks calls).
Proof.
  intros Hrun.
  apply run_keeps_valid in Hrun as (Hvalid & Hd & Hl); [|reflexivity].
  unfold Blockchain.is_chain_valid, gets. rewrite Hvalid.
  split; [reflexivity | split; [exact Hd | exact Hl]].
Qed.

End Honest.

Lemma session_chain_valid_witness :
  Session.run (H := hashlib_sha256)
    [Session.AddTransaction Demo.tx1;
     Session.MinePendingTransactions 64 (Some "Miner1") 1700000003 1700000004]
    (Blockchain.__init__ (H := hashlib_sha256) 1 1700000000 1700000001)
  = (Returned tt, snd Demo.mined)
  /\ Blockchain.is_chain_valid (H := hashlib_sha256) (snd Demo.mined)
     = (Returned true, snd Demo.mined)
  /\ length (Blockchain.chain (snd Demo.mined)) = 2%nat.
Proof.
  assert (Hrun : Session.run (H := hashlib_sha256)
                   [Session.AddTransaction Demo.tx1;
                    Session.MinePendingTransactions 64 (Some "Miner1")
                      1700000003 1700000004]
                   (Blockchain.__init__ (H := hashlib_sha256) 1 1700000000
                      1700000001)
                 = (Returned tt, snd Demo.mined))
    by (vm_compute; reflexivity).
  destruct (session_chain_valid (H := hashlib_sha256) _ _ _ _ _ Hrun)
    as (Hvalid & _ & Hlen).
  exact (conj Hrun (conj Hvalid Hlen)).
Defined.

(** ** A fresh chain *)


(** ** Balances and mining *)

Lemma scan_balance_balance (blocks : list Block.t) (a : option string) :
  Blockchain.scan_balance blocks a = Spec.balance blocks a.
Proof. unfold Blockchain.scan_balance. rewrite outer_loop_sum. lia. Qed.

(** A block at the end of the chain adds the contributions of its
    records. *)
Lemma scan_balance_snoc (blocks : list Block.t) (b : Block.t)
    (a : option string) :
  Blockchain.scan_balance (blocks ++ [b]) a
  = Blockchain.scan_balance blocks a
    + Ledger.sum (map (Spec.contribution a) (Block.transactions b)).
Proof.
  rewrite !scan_balance_balance. unfold Spec.balance, Spec.records, Ledger.sum.
  rewrite map_app, concat_app, map_app, sum_app. simpl.
  rewrite app_nil_r. reflexivity.
Qed.

Lemma contribution_to_dict `{Hashlib} (a : option string)
    (l : list Transaction.t) :
  map (Spec.contribution a) (map Transaction.to_dict l)
  = map (Ledger.effect a) l.
Proof. rewrite map_map. reflexivity. Qed.

(** The chain a returning call of [mine_pending_transactions] leaves. *)
Lemma mine_pending_transactions_chain `{Hashlib} (fuel : nat)
    (self self' : Blockchain.t) (address : option string)
    (t_reward t_block : Z) :
  Blockchain.mine_pending_transactions fuel address t_reward t_block self
  = (Returned tt, self') ->
  exists b,
    Blockchain.chain self' = Blockchain.chain self ++ [b]
    /\ Block.transactions b
       = map Transaction.to_dict
           (Blockchain.pending_transactions self
            ++ [Transaction.__init__ None address
                  (Blockchain.mining_reward self) t_reward]).
Proof.
  intros Hrun.
  destruct (last (Blockchain.chain self)) as [latest|] eqn:Hlast.
  - rewrite (mine_pending_transactions_run _ _ _ _ _ _ Hlast) in Hrun.
    destruct (Block.mine_block _ _ _) as [[n|e|] b] eqn:Hmine;
      try discriminate Hrun.
    injection Hrun as <-. exists b. split; [reflexivity|].
    unfold Block.mine_block in Hmine.
    apply mine_loop_returned in Hmine as (k & _ & _ & -> & _ & _).
    destruct (attempt_fields k
                (Blockchain.new_block self latest address t_reward t_block))
      as (_ & _ & -> & _).
    reflexivity.
  - apply last_None in Hlast.
    rewrite (mine_pending_transactions_empty _ _ _ _ _ Hlast) in Hrun.
    discriminate.
Qed.

Lemma balance_after_mining_formula `{Hashlib} (fuel : nat)
    (self self' : Blockchain.t) (address : option string)
    (t_reward t_block : Z) (a : option string) :
  Blockchain.mine_pending_transactions fuel address t_reward t_block self
  = (Returned tt, self') ->
  Blockchain.scan_balance (Blockchain.chain self') a
  = Blockchain.scan_balance (Blockchain.chain self) a
    + Ledger.sum
        (map (Ledger.effect a)
             (Blockchain.pending_transactions self
              ++ [Transaction.__init__ None address
                    (Blockchain.mining_reward self) t_reward])).
Proof.
  intros Hrun.
  apply mine_pending_transactions_chain in Hrun as (b & -> & Htx).
  rewrite scan_balance_snoc, Htx, contribution_to_dict. reflexivity.
Qed.



(** ** Conservation *)








(** ** The pending pool is not consulted *)

(** X7: the verdict of [add_transaction] depends on the chain, not on the
    pending pool; a transaction that was accepted is accepted again when it
    is submitted a second time before any block is mined. *)
Theorem add_transaction_ignores_pool :
  (forall (s1 s2 : Blockchain.t) (tx : Transaction.t),
      Blockchain.chain s1 = Blockchain.chain s2 ->
      fst (Blockchain.add_transaction tx s1)
      = fst (Blockchain.add_transaction tx s2))
  /\ (forall (self self1 : Blockchain.t) (tx : Transaction.t),
        Blockchain.add_transaction tx self = (Returned true, self1) ->
        Blockchain.add_transaction tx self1
        = (Returned true, Blockchain.pending_append tx self1)
        /\ Blockchain.pending_transactions
             (Blockchain.pending_append tx self1)
           = Blockchain.pending_transactions self ++ [tx; tx]).
Proof.
  split.
  - intros s1 s2 tx Hchain. rewrite !add_transaction_run, Hchain.
    destruct (_ || _); reflexivity.
  - intros self self1 tx. rewrite !add_transaction_run.
    destruct (_ || _) eqn:E; [discriminate|]. intros [= <-].
    simpl. rewrite E. split; [reflexivity|].
    rewrite <- app_assoc. reflexivity.
Qed.

Lemma add_transaction_ignores_pool_witness :
  Blockchain.add_transaction Demo.spend (snd Demo.mined)
  = (Returned true, Blockchain.pending_append Demo.spend (snd Demo.mined))
  /\ Blockchain.add_transaction Demo.spend
       (Blockchain.pending_append Demo.spend (snd Demo.mined))
     = (Returned true, Demo.spent_twice).
Proof.
  assert (Hfirst : Blockchain.add_transaction Demo.spend (snd Demo.mined)
                   = (Returned true,
                      Blockchain.pending_append Demo.spend (snd Demo.mined)))
    by (vm_compute; reflexivity).
  split; [exact Hfirst|].
  exact (proj1 (proj2 add_transaction_ignores_pool _ _ _ Hfirst)).
Defined.



(** ** The proof-of-work search *)

Section Search.
Context `{Hashlib}.

(** [calculate_hash] reads five attributes. *)
Lemma calculate_hash_ext (b1 b2 : Block.t) :
  Block.index b1 = Block.index b2 ->
  Block.timestamp b1 = Block.timestamp b2 ->
  Block.transactions b1 = Block.transactions b2 ->
  Block.previous_hash b1 = Block.previous_hash b2 ->
  Block.nonce b1 = Block.nonce b2 ->
  Block.calculate_hash b1 = Block.calculate_hash b2.
Proof.
  intros Hi Ht Htx Hp Hn. unfold Block.calculate_hash, Block.block_string.
  rewrite Hi, Ht, Htx, Hp, Hn. reflexivity.
Qed.

(** The hash after [j >= 1] executions of the loop body is the content hash
    of the block with its nonce advanced by [j]. *)
Lemma attempt_hash (j : nat) (b : Block.t) :
  (0 < j)%nat ->
  Block.hash (Block.attempt j b)
  = Block.calculate_hash (Block.set_nonce (Block.nonce b + Z.of_nat j) b).
Proof.
  destruct j as [|j]; [lia|]. intros _.
  unfold Block.attempt. rewrite Nat.iter_succ.
  fold (Block.attempt j b).
  destruct (attempt_fields j b) as (Hi & Ht & Htx & Hp).
  change (Block.hash (Block.mine_step (Block.attempt j b)))
    with (Block.calculate_hash
            (Block.set_nonce (Block.nonce (Block.attempt j b) + 1)
               (Block.attempt j b))).
  apply calculate_hash_ext; simpl; try assumption.
  rewrite attempt_nonce. lia.
Qed.

(** X9: when [mine_block] returns after [n] executions of the loop body, the
    nonce has advanced by [n] and nothing else but the hash has changed; if
    [n >= 1] the hash is the content hash at the new nonce, and it is the
    first to meet the target: neither the stored hash nor the content hash
    at any nonce in between met it. *)
Theorem mine_block_first_solution (fuel : nat) (d : Z) (b b' : Block.t)
    (n : nat) :
  Block.mine_block fuel d b = (Returned n, b') ->
  Block.index b' = Block.index b
  /\ Block.timestamp b' = Block.timestamp b
  /\ Block.transactions b' = Block.transactions b
  /\ Block.previous_hash b' = Block.previous_hash b
  /\ Block.nonce b' = Block.nonce b + Z.of_nat n
  /\ Block.meets_target d (Block.hash b') = true
  /\ ((0 < n)%nat ->
      Block.hash b'
      = Block.calculate_hash (Block.set_nonce (Block.nonce b + Z.of_nat n) b)
      /\ Block.meets_target d (Block.hash b) = false)
  /\ (forall j, (0 < j < n)%nat ->
        Block.meets_target d
          (Block.calculate_hash
             (Block.set_nonce (Block.nonce b + Z.of_nat j) b))
        = false).
Proof.
  unfold Block.mine_block. intros Hrun.
  apply mine_loop_returned in Hrun as (k & -> & _ & -> & Hmeets & Hfirst).
  simpl. destruct (attempt_fields k b) as (Hi & Ht & Htx & Hp).
  repeat split; try assumption.
  - apply attempt_nonce.
  - apply attempt_hash. assumption.
  - apply (Hfirst O). assumption.
  - intros j Hj. rewrite <- attempt_hash by lia. apply Hfirst. lia.
Qed.

(** More fuel does not change what a search that returns finds. *)
Lemma mine_loop_more_fuel (f1 f2 : nat) (d : Z) (i : nat) (b b' : Block.t)
    (n : nat) :
  Block.mine_loop f1 d i b = (Returned n, b') ->
  (f1 <= f2)%nat ->
  Block.mine_loop f2 d i b = (Returned n, b').
Proof.
  revert f2 i b. induction f1 as [|f1 IH]; intros f2 i b Hrun Hle;
    rewrite mine_loop_unfold in Hrun; rewrite mine_loop_unfold;
    destruct (Block.meets_target d (Block.hash b)); simpl in *;
    try exact Hrun; try discriminate.
  destruct f2 as [|f2]; [lia|]. apply IH; [exact Hrun | lia].
Qed.

(** X10: [mine_block] returns, given enough fuel, exactly when the stored
    hash meets the target or the content hash does at some later nonce. *)
Theorem mine_block_terminates_iff (d : Z) (b : Block.t) :
  (exists fuel n b', Block.mine_block fuel d b = (Returned n, b'))
  <-> Block.meets_target d (Block.hash b) = true
      \/ exists j, (0 < j)%nat
                   /\ Block.meets_target d
                        (Block.calculate_hash
                           (Block.set_nonce (Block.nonce b + Z.of_nat j) b))
                      = true.
Proof.
  split.
  - intros (fuel & n & b' & Hrun).
    unfold Block.mine_block in Hrun.
    apply mine_loop_returned in Hrun as (k & _ & _ & -> & Hmeets & _).
    destruct k as [|k]; [left; exact Hmeets|].
    right. exists (S k). split; [lia|].
    rewrite <- attempt_hash by lia. exact Hmeets.
  - intros [Hnow|(j & Hj & Hlater)].
    + exists O, O, b. unfold Block.mine_block. rewrite mine_loop_unfold, Hnow.
      reflexivity.
    + rewrite <- attempt_hash in Hlater by exact Hj.
      destruct (mine_loop_terminates j j d O b Hlater (Nat.le_refl j))
        as (n & b' & _ & Hrun).
      exists j, n, b'. exact Hrun.
Qed.

(** X11: a target no digest can meet: when every digest, and the stored
    hash, has [len] characters and the difficulty is greater than [len], or
    negative and greater than [- len], [mine_block] does not return, whatever
    the fuel. *)
Theorem mine_block_unattainable (len : nat) (d : Z) (b : Block.t) (fuel : nat) :
  (forall s, String.length (sha256_hexdigest s) = len) ->
  String.length (Block.hash b) = len ->
  Z.of_nat len < d \/ - Z.of_nat len < d < 0 ->
  fst (Block.mine_block fuel d b) = Exhausted.
Proof.
  intros Hdigest Hlen Hd.
  assert (Hnever : forall h, String.length h = len ->
                             Block.meets_target d h = false).
  { intros h Hh. unfold Block.meets_target.
    apply String.eqb_neq. intros Heq.
    apply (f_equal String.length) in Heq.
    unfold PyStr.slice_to, PyStr.repeat in Heq.
    rewrite length_replicate in Heq.
    assert (Htake : forall n s,
               String.length (PyStr.take n s) = Nat.min n (String.length s)).
    { induction n as [|n IHn]; intros [|c s]; simpl; auto. }
    destruct (0 <=? d)%Z eqn:E; rewrite Htake, Hh in Heq;
      [apply Z.leb_le in E | apply Z.leb_gt in E]; lia. }
  unfold Block.mine_block. generalize O as i. revert b Hlen.
  induction fuel as [|fuel IH]; intros b Hlen i; rewrite mine_loop_unfold;
    rewrite (Hnever _ Hlen); simpl; [reflexivity|].
  apply IH. apply Hdigest.
Qed.

End Search.

Lemma mine_block_first_solution_witness :
  Block.mine_block (H := hashlib_sha256) 64 1 Demo.candidate
  = (Returned 6%nat, Demo.sealed)
  /\ Block.nonce Demo.sealed = Block.nonce Demo.candidate + Z.of_nat 6
  /\ Block.transactions Demo.sealed = Block.transactions Demo.candidate.
Proof.
  assert (Hrun : Block.mine_block (H := hashlib_sha256) 64 1 Demo.candidate
                 = (Returned 6%nat, Demo.sealed)) by (vm_compute; reflexivity).
  destruct (mine_block_first_solution (H := hashlib_sha256) _ _ _ _ _ Hrun)
    as (_ & _ & Htx & _ & Hnonce & _).
  exact (conj Hrun (conj Hnonce Htx)).
Defined.

(** *** The length of a SHA-256 digest *)

Lemma length_round (k w : Z) (st : list Z) :
  length (Sha256.round k w st) = length st.
Proof.
  destruct st as [|a [|b [|c [|d [|e [|f [|g [|h [|i st]]]]]]]]];
    reflexivity.
Qed.

Lemma length_rounds (ks window st : list Z) :
  length (Sha256.rounds ks window st) = length st.
Proof.
  revert window st. induction ks as [|k ks IH]; intros [|w window] st;
    try reflexivity.
  cbn [Sha256.rounds]. rewrite IH. apply length_round.
Qed.

Lemma length_add_all (xs ys : list Z) :
  length (Sha256.add_all xs ys) = Nat.min (length xs) (length ys).
Proof.
  revert ys. induction xs as [|x xs IH]; intros [|y ys]; try reflexivity.
  cbn [Sha256.add_all length]. rewrite IH. reflexivity.
Qed.

Lemma length_blocks (fuel : nat) (ws h : list Z) :
  length (Sha256.blocks fuel ws h) = length h.
Proof.
  revert ws h. induction fuel as [|fuel IH]; intros [|w ws] h;
    try reflexivity.
  cbn [Sha256.blocks]. rewrite IH. unfold Sha256.compress.
  rewrite length_add_all, length_rounds. apply Nat.min_id.
Qed.

Lemma length_hex_words (l : list Z) :
  length (concat (map Sha256.hex_word l)) = (8 * length l)%nat.
Proof.
  induction l as [|x l IH]; [reflexivity|].
  cbn [map concat]. rewrite length_app, IH.
  unfold Sha256.hex_word. rewrite length_map. simpl. lia.
Qed.

Lemma length_string_of_list_ascii (l : list ascii) :
  String.length (string_of_list_ascii l) = length l.
Proof. induction l as [|c l IH]; simpl; congruence. Qed.

(** A digest has 64 characters. *)
Lemma hexdigest_length (s : string) :
  String.length (Sha256.hexdigest s) = 64%nat.
Proof.
  unfold Sha256.hexdigest.
  rewrite length_string_of_list_ascii, length_hex_words, length_blocks.
  reflexivity.
Qed.

Lemma mine_block_unattainable_witness :
  (forall s, String.length (Sha256.hexdigest s) = 64%nat)
  /\ String.length (Block.hash Demo.candidate) = 64%nat
  /\ fst (Block.mine_block (H := hashlib_sha256) 3 65 Demo.candidate)
     = Exhausted.
Proof.
  assert (Hlen : String.length (Block.hash Demo.candidate) = 64%nat)
    by apply hexdigest_length.
  split; [exact hexdigest_length|]. split; [exact Hlen|].
  apply (mine_block_unattainable (H := hashlib_sha256) 64 65 Demo.candidate 3
           hexdigest_length Hlen).
  left. lia.
Defined.

(** ** What a hash binds *)







(** ** What [is_chain_valid] detects, and what it does not *)

Section Forging.
Context `{Hashlib}.

Lemma check_block_none (d : Z) (current before : Block.t) :
  Blockchain.check_block d current before = None
  <-> Block.hash current = Block.calculate_hash current
      /\ Block.previous_hash current = Block.hash before
      /\ PyStr.startswith (Block.hash current) (PyStr.repeat "0" d) = true.
Proof.
  unfold Blockchain.check_block.
  destruct (String.eqb_spec (Block.hash current)
              (Block.calculate_hash current));
    destruct (String.eqb_spec (Block.previous_hash current)
                (Block.hash before));
    destruct (PyStr.startswith _ _); simpl;
    split; try discriminate; try (intros (? & ? & ?); congruence);
    intros _; repeat split; assumption.
Qed.

(** The tests a block passes on a chain that [is_chain_valid] accepts. *)
Lemma valid_block (self : Blockchain.t) (i : nat) (b : Block.t) :
  Blockchain.first_failure self = None ->
  (1 <= i)%nat ->
  Blockchain.chain self !! i = Some b ->
  exists before,
    Blockchain.chain self !! (i - 1)%nat = Some before
    /\ Blockchain.check_block (Blockchain.difficulty self) b before = None.
Proof.
  intros Hvalid Hi Hb.
  assert (Hbefore : is_Some (Blockchain.chain self !! (i - 1)%nat)).
  { apply lookup_lt_is_Some. apply lookup_lt_Some in Hb. lia. }
  destruct Hbefore as [before Hbefore]. exists before.
  split; [exact Hbefore|].
  assert (Hall : Blockchain.is_chain_valid self = (Returned true, self)).
  { unfold Blockchain.is_chain_valid, gets. rewrite Hvalid. reflexivity. }
  exact (proj1 (is_chain_valid_indexed self) Hall i b before Hi Hb Hbefore).
Qed.

(** A block whose stored hash is not its content hash, put in the place of
    a block after the genesis block of a chain that passes, is found at its
    index. *)
Lemma replaced_block_found (self : Blockchain.t) (i : nat) (b' : Block.t) :
  Blockchain.first_failure self = None ->
  (1 <= i < length (Blockchain.chain self))%nat ->
  Block.hash b' <> Block.calculate_hash b' ->
  Blockchain.first_failure
    (Blockchain.set_chain (<[i := b']> (Blockchain.chain self)) self)
  = Some (i, Blockchain.HashInvalid).
Proof.
  intros Hvalid Hi Hstale. unfold Blockchain.first_failure in *. simpl.
  destruct (Blockchain.chain self) as [|genesis rest]; [simpl in Hi; lia|].
  destruct i as [|i]; [lia|]. simpl in Hi. simpl.
  assert (Hlen : (i < length rest)%nat) by lia.
  destruct (lookup_lt_is_Some_2 rest i Hlen) as [b Hb].
  rewrite insert_take_drop by exact Hlen.
  rewrite <- (take_drop_middle rest i b Hb) in Hvalid.
  rewrite check_from_app in Hvalid. rewrite check_from_app.
  destruct (Blockchain.check_from (Blockchain.difficulty self) 1 genesis
              (take i rest)); [discriminate|].
  rewrite length_take, Nat.min_l by lia.
  unfold Blockchain.check_block.
  destruct (String.eqb_spec (Block.hash b') (Block.calculate_hash b'));
    [contradiction | reflexivity].
Qed.

Lemma assign_content_hash (a : Forge.assignment) (b : Block.t) :
  Forge.to_content a = true ->
  Block.hash (Forge.assign a b) = Block.hash b.
Proof. destruct a; try discriminate; reflexivity. Qed.


(** X15: on a chain that [is_chain_valid] accepts, assigning a different
    value to the stored hash of a block after the genesis block is always
    found, by the hash test at the index of that block. *)
Theorem stored_hash_change_detected (self self' : Blockchain.t) (i : nat)
    (v : string) (b : Block.t) :
  Blockchain.is_chain_valid self = (Returned true, self) ->
  (1 <= i)%nat ->
  Blockchain.chain self !! i = Some b ->
  v <> Block.hash b ->
  Forge.in_chain i (Forge.SetHash v) self = (Returned tt, self') ->
  Blockchain.is_chain_valid self' = (Returned false, self')
  /\ Blockchain.first_failure self' = Some (i, Blockchain.HashInvalid).
Proof.
  intros Hvalid Hi Hb Hnew Hforge.
  assert (Hnone : Blockchain.first_failure self = None).
  { unfold Blockchain.is_chain_valid, gets in Hvalid.
    destruct (Blockchain.first_failure self); [discriminate | reflexivity]. }
  unfold Forge.in_chain in Hforge. rewrite Hb in Hforge.
  assert (Hself : self'
                  = Blockchain.set_chain
                      (<[i := Forge.assign (Forge.SetHash v) b]>
                         (Blockchain.chain self)) self) by congruence.
  subst self'. clear Hforge.
  destruct (valid_block self i b Hnone Hi Hb) as (before & _ & Hpass).
  apply check_block_none in Hpass as (Hsealed & _ & _).
  assert (Hfail : Blockchain.first_failure
                    (Blockchain.set_chain
                       (<[i := Forge.assign (Forge.SetHash v) b]>
                          (Blockchain.chain self)) self)
                  = Some (i, Blockchain.HashInvalid)).
  { apply replaced_block_found; [exact Hnone | | ].
    - split; [exact Hi | eapply lookup_lt_Some; exact Hb].
    - simpl. change (Block.calculate_hash (Block.set_hash v b))
        with (Block.calculate_hash b). congruence. }
  split; [|exact Hfail].
  unfold Blockchain.is_chain_valid, gets. rewrite Hfail. reflexivity.
Qed.

Lemma check_from_previous_hash (d : Z) (k : nat) (p1 p2 : Block.t)
    (rest : list Block.t) :
  Block.hash p1 = Block.hash p2 ->
  Blockchain.check_from d k p1 rest = Blockchain.check_from d k p2 rest.
Proof.
  intros Hp. destruct rest as [|b rest]; [reflexivity|]. simpl.
  unfold Blockchain.check_block. rewrite Hp. reflexivity.
Qed.

(** X16: the genesis block is not checked: assigning anything to its index,
    timestamp, transactions, previous hash or nonce changes nothing to what
    [is_chain_valid] returns, on any chain. *)
Theorem genesis_content_unchecked (self self' : Blockchain.t)
    (a : Forge.assignment) :
  Forge.to_content a = true ->
  Forge.in_chain 0 a self = (Returned tt, self') ->
  fst (Blockchain.is_chain_valid self') = fst (Blockchain.is_chain_valid self)
  /\ Blockchain.first_failure self' = Blockchain.first_failure self.
Proof.
  intros Hcontent Hforge. unfold Forge.in_chain in Hforge.
  destruct (Blockchain.chain self) as [|genesis rest] eqn:Hchain;
    [discriminate|].
  simpl in Hforge. injection Hforge as <-.
  assert (Hsame : Blockchain.first_failure
                    (Blockchain.set_chain (Forge.assign a genesis :: rest)
                       self)
                  = Blockchain.first_failure self).
  { unfold Blockchain.first_failure. simpl. rewrite Hchain.
    apply check_from_previous_hash. apply assign_content_hash.
    exact Hcontent. }
  split; [|exact Hsame].
  unfold Blockchain.is_chain_valid, gets. simpl. rewrite Hsame. reflexivity.
Qed.

(** X17: the stored hash of the genesis block is checked through the link
    of the block after it: on a chain of two blocks or more that
    [is_chain_valid] accepts, assigning it a different value is found at
    index 1, as a broken link. *)
Theorem genesis_hash_change_detected (self self' : Blockchain.t) (v : string)
    (genesis : Block.t) :
  Blockchain.is_chain_valid self = (Returned true, self) ->
  (2 <= length (Blockchain.chain self))%nat ->
  Blockchain.chain self !! 0%nat = Some genesis ->
  v <> Block.hash genesis ->
  Forge.in_chain 0 (Forge.SetHash v) self = (Returned tt, self') ->
  Blockchain.is_chain_valid self' = (Returned false, self')
  /\ Blockchain.first_failure self' = Some (1%nat, Blockchain.NotLinked).
Proof.
  intros Hvalid Hlen Hgenesis Hnew Hforge.
  assert (Hnone : Blockchain.first_failure self = None).
  { unfold Blockchain.is_chain_valid, gets in Hvalid.
    destruct (Blockchain.first_failure self); [discriminate | reflexivity]. }
  unfold Forge.in_chain in Hforge. rewrite Hgenesis in Hforge.
  destruct (Blockchain.chain self) as [|g [|b rest]] eqn:Hchain;
    simpl in Hlen; try lia.
  injection Hgenesis as ->.
  assert (Hself : self'
                  = Blockchain.set_chain
                      (<[0%nat := Forge.assign (Forge.SetHash v) genesis]>
                         (genesis :: b :: rest)) self) by congruence.
  subst self'. clear Hforge.
  assert (Hfail : Blockchain.first_failure
                    (Blockchain.set_chain
                       (<[0%nat := Forge.assign (Forge.SetHash v) genesis]>
                          (genesis :: b :: rest)) self)
                  = Some (1%nat, Blockchain.NotLinked)).
  { unfold Blockchain.first_failure in *. rewrite Hchain in Hnone.
    simpl in *.
    destruct (Blockchain.check_block (Blockchain.difficulty self) b genesis)
      eqn:Hpass; [discriminate|].
    apply check_block_none in Hpass as (Hsealed & Hlink & _).
    unfold Blockchain.check_block. simpl.
    rewrite <- Hsealed, String.eqb_refl. simpl.
    destruct (String.eqb_spec (Block.previous_hash b) v);
      [congruence | reflexivity]. }
  split; [|exact Hfail].
  unfold Blockchain.is_chain_valid, gets. rewrite Hfail. reflexivity.
Qed.

(** X18: the latest block can be rewritten: on a chain that
    [is_chain_valid] accepts, the latest block (not the genesis block)
    replaced by a block with the same index and previous hash and any
    transactions, built by the constructor and mined at the difficulty of
    the chain, leaves a chain that [is_chain_valid] accepts. *)
Theorem latest_block_rewritable (self : Blockchain.t)
    (earlier : list Block.t) (b b' : Block.t) (transactions : list TxDict.t)
    (now : Z) (fuel n : nat) :
  Blockchain.is_chain_valid self = (Returned true, self) ->
  Blockchain.chain self = earlier ++ [b] ->
  earlier <> [] ->
  Block.mine_block fuel (Blockchain.difficulty self)
    (Block.__init__ (Block.index b) transactions (Block.previous_hash b) 0 now)
  = (Returned n, b') ->
  let self' := Blockchain.set_chain (earlier ++ [b']) self in
  Blockchain.is_chain_valid self' = (Returned true, self')
  /\ Block.transactions b' = transactions.
Proof.
  intros Hvalid Hchain Hearlier Hmine self'.
  assert (Hnone : Blockchain.first_failure self = None).
  { unfold Blockchain.is_chain_valid, gets in Hvalid.
    destruct (Blockchain.first_failure self); [discriminate | reflexivity]. }
  pose proof Hmine as Hfields. unfold Block.mine_block in Hfields.
  apply mine_loop_returned in Hfields as (k & _ & _ & Hb' & _ & _).
  destruct (attempt_fields k
              (Block.__init__ (Block.index b) transactions
                 (Block.previous_hash b) 0 now)) as (_ & _ & Htx & _).
  apply mined_block_sealed in Hmine as (Hsealed & Hlink & Hmeets).
  split; [|rewrite Hb'; exact Htx].
  unfold Blockchain.is_chain_valid, gets.
  replace (Blockchain.first_failure self') with
    (@None (nat * Blockchain.failure)); [reflexivity|].
  symmetry. unfold Blockchain.first_failure in *. subst self'. simpl.
  rewrite Hchain in Hnone.
  destruct earlier as [|genesis rest]; [contradiction|]. simpl in *.
  rewrite check_from_app in Hnone. rewrite check_from_app.
  destruct (Blockchain.check_from (Blockchain.difficulty self) 1 genesis rest);
    [discriminate|].
  destruct (Blockchain.check_block (Blockchain.difficulty self) b
              (default genesis (last rest))) eqn:Hpass; [discriminate|].
  apply check_block_none in Hpass as (_ & Hprev & _).
  rewrite check_block_sealed; [reflexivity | exact Hsealed | | exact Hmeets].
  congruence.
Qed.

(** X19: [mine_block] does not repair a block that was altered: on a chain
    that [is_chain_valid] accepts, with a difficulty that is not negative, a
    block after the genesis block whose index, timestamp, transactions,
    previous hash or nonce is assigned anything still has a stored hash
    that meets the target, so that [mine_block] returns at once and leaves
    it as it is. *)
Theorem mine_block_keeps_forged (self : Blockchain.t) (i : nat)
    (a : Forge.assignment) (b : Block.t) (fuel : nat) :
  Blockchain.is_chain_valid self = (Returned true, self) ->
  0 <= Blockchain.difficulty self ->
  (1 <= i)%nat ->
  Blockchain.chain self !! i = Some b ->
  Forge.to_content a = true ->
  Block.mine_block fuel (Blockchain.difficulty self) (Forge.assign a b)
  = (Returned O, Forge.assign a b).
Proof.
  intros Hvalid Hd Hi Hb Hcontent.
  assert (Hnone : Blockchain.first_failure self = None).
  { unfold Blockchain.is_chain_valid, gets in Hvalid.
    destruct (Blockchain.first_failure self); [discriminate | reflexivity]. }
  destruct (valid_block self i b Hnone Hi Hb) as (before & _ & Hpass).
  apply check_block_none in Hpass as (_ & _ & Hstarts).
  unfold Block.mine_block. rewrite mine_loop_unfold.
  rewrite (assign_content_hash a b Hcontent).
  rewrite (startswith_meets_target _ _ Hd Hstarts). reflexivity.
Qed.

End Forging.

(** *** The properties above on the mined chain of [Demo] *)

Lemma mined_chain_valid :
  Blockchain.is_chain_valid (H := hashlib_sha256) (snd Demo.mined)
  = (Returned true, snd Demo.mined).
Proof. vm_compute. reflexivity. Qed.

Lemma mined_chain_block :
  Blockchain.chain (snd Demo.mined) !! 1%nat = Some Demo.sealed.
Proof. vm_compute. reflexivity. Qed.


Lemma stored_hash_change_detected_witness :
  "0f00" <> Block.hash Demo.sealed
  /\ Blockchain.first_failure (H := hashlib_sha256)
       (snd (Forge.in_chain 1 (Forge.SetHash "0f00") (snd Demo.mined)))
     = Some (1%nat, Blockchain.HashInvalid).
Proof.
  assert (Hnew : "0f00" <> Block.hash Demo.sealed)
    by (vm_compute; discriminate).
  assert (Hforge : Forge.in_chain 1 (Forge.SetHash "0f00") (snd Demo.mined)
                   = (Returned tt,
                      snd (Forge.in_chain 1 (Forge.SetHash "0f00")
                             (snd Demo.mined))))
    by (vm_compute; reflexivity).
  split; [exact Hnew|].
  exact (proj2 (stored_hash_change_detected (H := hashlib_sha256)
                  (snd Demo.mined) _ 1 "0f00" Demo.sealed
                  mined_chain_valid ltac:(lia) mined_chain_block
                  Hnew Hforge)).
Defined.

Lemma genesis_content_unchecked_witness :
  Forge.in_chain 0 (Forge.SetTransactions []) (snd Demo.mined)
  = (Returned tt,
     snd (Forge.in_chain 0 (Forge.SetTransactions []) (snd Demo.mined)))
  /\ Blockchain.first_failure (H := hashlib_sha256)
       (snd (Forge.in_chain 0 (Forge.SetTransactions []) (snd Demo.mined)))
     = Blockchain.first_failure (H := hashlib_sha256) (snd Demo.mined).
Proof.
  assert (Hforge : Forge.in_chain 0 (Forge.SetTransactions [])
                     (snd Demo.mined)
                   = (Returned tt,
                      snd (Forge.in_chain 0 (Forge.SetTransactions [])
                             (snd Demo.mined))))
    by (vm_compute; reflexivity).
  split; [exact Hforge|].
  exact (proj2 (genesis_content_unchecked (H := hashlib_sha256)
                  (snd Demo.mined) _ (Forge.SetTransactions []) eq_refl
                  Hforge)).
Defined.

Lemma genesis_hash_change_detected_witness :
  "00" <> Block.hash Demo.genesis
  /\ Blockchain.first_failure (H := hashlib_sha256)
       (snd (Forge.in_chain 0 (Forge.SetHash "00") (snd Demo.mined)))
     = Some (1%nat, Blockchain.NotLinked).
Proof.
  assert (Hnew : "00" <> Block.hash Demo.genesis)
    by (vm_compute; discriminate).
  assert (Hlen : (2 <= length (Blockchain.chain (snd Demo.mined)))%nat)
    by (vm_compute; lia).
  assert (Hgenesis : Blockchain.chain (snd Demo.mined) !! 0%nat
                     = Some Demo.genesis) by (vm_compute; reflexivity).
  assert (Hforge : Forge.in_chain 0 (Forge.SetHash "00") (snd Demo.mined)
                   = (Returned tt,
                      snd (Forge.in_chain 0 (Forge.SetHash "00")
                             (snd Demo.mined))))
    by (vm_compute; reflexivity).
  split; [exact Hnew|].
  exact (proj2 (genesis_hash_change_detected (H := hashlib_sha256)
                  (snd Demo.mined) _ "00" Demo.genesis mined_chain_valid
                  Hlen Hgenesis Hnew Hforge)).
Defined.

Lemma latest_block_rewritable_witness :
  Demo.rewritten = (Returned 2%nat, snd Demo.rewritten)
  /\ Blockchain.is_chain_valid (H := hashlib_sha256)
       (Blockchain.set_chain ([Demo.genesis] ++ [snd Demo.rewritten])
          (snd Demo.mined))
     = (Returned true,
        Blockchain.set_chain ([Demo.genesis] ++ [snd Demo.rewritten])
          (snd Demo.mined))
  /\ Block.transactions (snd Demo.rewritten) = [].
Proof.
  assert (Hmine : Block.mine_block (H := hashlib_sha256) 16
                    (Blockchain.difficulty (snd Demo.mined))
                    (Block.__init__ (H := hashlib_sha256)
                       (Block.index Demo.sealed) []
                       (Block.previous_hash Demo.sealed) 0 1700000012)
                  = (Returned 2%nat, snd Demo.rewritten))
    by (vm_compute; reflexivity).
  assert (Hchain : Blockchain.chain (snd Demo.mined)
                   = [Demo.genesis] ++ [Demo.sealed])
    by (vm_compute; reflexivity).
  split; [exact Hmine|].
  exact (latest_block_rewritable (H := hashlib_sha256) (snd Demo.mined)
           [Demo.genesis] Demo.sealed (snd Demo.rewritten) [] 1700000012
           16 2 mined_chain_valid Hchain ltac:(discriminate) Hmine).
Defined.

Lemma mine_block_keeps_forged_witness :
  Block.mine_block (H := hashlib_sha256) 5
    (Blockchain.difficulty (snd Demo.mined))
    (Forge.assign (Forge.SetNonce 7) Demo.sealed)
  = (Returned O, Forge.assign (Forge.SetNonce 7) Demo.sealed).
Proof.
  assert (Hd : 0 <= Blockchain.difficulty (snd Demo.mined))
    by (vm_compute; discriminate).
  exact (mine_block_keeps_forged (H := hashlib_sha256) (snd Demo.mined) 1
           (Forge.SetNonce 7) Demo.sealed 5 mined_chain_valid Hd
           ltac:(lia) mined_chain_block eq_refl).
Defined.

(** ** [demo] *)

Section Demonstration.
Context `{Hashlib}.

Lemma fresh_balance (difficulty t_record t_block : Z) (a : option string) :
  Blockchain.scan_balance
    (Blockchain.chain (Blockchain.__init__ difficulty t_record t_block)) a
  = 0.
Proof.
  unfold Blockchain.scan_balance, Blockchain.balance_step. cbn -[py_eq].
  destruct (py_eq None a), (py_eq (Some "genesis") a); reflexivity.
Qed.

(** Without funds nothing is accepted. *)
Lemma add_transaction_poor (self : Blockchain.t) (tx : Transaction.t) :
  Blockchain.scan_balance (Blockchain.chain self) (Transaction.sender tx) <= 0 ->
  Blockchain.add_transaction tx self = (Returned false, self).
Proof.
  intros Hpoor. rewrite add_transaction_run. unfold Transaction.is_valid.
  destruct (py_eq _ _); [reflexivity|].
  destruct (Z.leb_spec (Transaction.amount tx) 0); simpl; [reflexivity|].
  destruct (Z.ltb_spec
              (Blockchain.scan_balance (Blockchain.chain self)
                 (Transaction.sender tx)) (Transaction.amount tx));
    [reflexivity | lia].
Qed.

(** The state a returning call of [mine_pending_transactions] leaves. *)
Lemma mine_pending_transactions_returned (fuel : nat)
    (self self' : Blockchain.t) (address : option string)
    (t_reward t_block : Z) :
  Blockchain.mine_pending_transactions fuel address t_reward t_block self
  = (Returned tt, self') ->
  exists b,
    self' = {| Blockchain.chain := Blockchain.chain self ++ [b];
               Blockchain.difficulty := Blockchain.difficulty self;
               Blockchain.pending_transactions := [];
               Blockchain.mining_reward := Blockchain.mining_reward self |}
    /\ Block.transactions b
       = map Transaction.to_dict
           (Blockchain.pending_transactions self
            ++ [Transaction.__init__ None address
                  (Blockchain.mining_reward self) t_reward])
    /\ Block.hash b = Block.calculate_hash b.
Proof.
  intros Hrun.
  destruct (last (Blockchain.chain self)) as [latest|] eqn:Hlast.
  - rewrite (mine_pending_transactions_run _ _ _ _ _ _ Hlast) in Hrun.
    destruct (Block.mine_block _ _ _) as [[n|e|] b] eqn:Hmine;
      try discriminate Hrun.
    injection Hrun as <-. exists b. split; [reflexivity|].
    pose proof Hmine as Hfields. unfold Block.mine_block in Hfields.
    apply mine_loop_returned in Hfields as (k & _ & _ & Hb & _ & _).
    destruct (attempt_fields k
                (Blockchain.new_block self latest address t_reward t_block))
      as (_ & _ & Htx & _).
    split; [rewrite Hb; exact Htx|].
    apply mined_block_sealed in Hmine as (Hsealed & _). exact Hsealed.
  - apply last_None in Hlast.
    rewrite (mine_pending_transactions_empty _ _ _ _ _ Hlast) in Hrun.
    discriminate.
Qed.

(** Mining an empty pool credits the miner and nobody else. *)
Lemma mined_balance (fuel : nat) (self self' : Blockchain.t) (miner : string)
    (t_reward t_block : Z) (name : string) :
  Blockchain.mine_pending_transactions fuel (Some miner) t_reward t_block self
  = (Returned tt, self') ->
  Blockchain.pending_transactions self = [] ->
  Blockchain.scan_balance (Blockchain.chain self') (Some name)
  = Blockchain.scan_balance (Blockchain.chain self) (Some name)
    + (if String.eqb miner name then Blockchain.mining_reward self else 0).
Proof.
  intros Hrun Hpool.
  rewrite (balance_after_mining_formula _ _ _ _ _ _ (Some name) Hrun), Hpool.
  unfold Ledger.sum, Ledger.effect. simpl. lia.
Qed.

Lemma balances_run (names : list string) (self : Blockchain.t) :
  Main.balances names self
  = (Returned
       (map (fun name =>
               Blockchain.scan_balance (Blockchain.chain self) (Some name))
            names), self).
Proof.
  induction names as [|name names IH]; [reflexivity|].
  cbn [Main.balances map]. unfold bind, Blockchain.get_balance, gets.
  rewrite IH. reflexivity.
Qed.

End Demonstration.

(** X20: whenever [demo] runs to its end, whatever the clock and the digest:
    the four transfers it submits are all rejected (nobody but the miners
    ever has funds), the balances it prints are 0 for Alice, Bob and Charlie
    and 100 for each miner, the chain is valid before the tampering, and
    after it [is_chain_valid] returns [False] unless the text of block 1
    and of the altered block 1 are a collision of the digest. *)
Theorem demo_report `{Hashlib} (fuel : nat) (clock : nat -> Z)
    (r : Main.report) (s : Blockchain.t) :
  Main.demo fuel clock = (Returned r, s) ->
  Main.initial_info r
  = {| Blockchain.info_blocks := 1; Blockchain.info_difficulty := 2;
       Blockchain.info_pending_transactions := 0;
       Blockchain.info_is_valid := true |}
  /\ Main.accepted r = [false; false; false]
  /\ Main.balances_block_1 r = [0; 0; 0; 100]
  /\ Main.accepted_4 r = false
  /\ Main.final_balances r = [0; 0; 0; 100; 100]
  /\ Main.valid r = true
  /\ Main.final_info r
     = {| Blockchain.info_blocks := 3; Blockchain.info_difficulty := 2;
          Blockchain.info_pending_transactions := 0;
          Blockchain.info_is_valid := Main.valid_after_tampering r |}
  /\ (Main.valid_after_tampering r = false
      \/ exists b,
           Blockchain.chain s !! 1%nat
           = Some (snd (Tamper.in_block 0 (Tamper.SetAmount 999999) b))
           /\ collision (Block.block_string b)
                (Block.block_string
                   (snd (Tamper.in_block 0 (Tamper.SetAmount 999999) b)))).
Proof.
  unfold Main.demo. intros Hrun.
  set (fresh := Blockchain.__init__ 2 (clock 0%nat) (clock 1%nat)) in *.
  assert (Hzero : forall a, Blockchain.scan_balance (Blockchain.chain fresh) a = 0)
    by (intros a; apply fresh_balance).
  assert (Hvalid0 : Blockchain.first_failure fresh = None) by reflexivity.
  unfold bind at 1 in Hrun.
  change (Blockchain.get_chain_info fresh)
    with (Returned {| Blockchain.info_blocks := 1; Blockchain.info_difficulty := 2;
       Blockchain.info_pending_transactions := 0;
       Blockchain.info_is_valid := true |}, fresh) in Hrun.
  cbv beta match zeta in Hrun.
  unfold bind at 1 in Hrun.
  rewrite (add_transaction_poor fresh) in Hrun by (rewrite Hzero; lia).
  cbv beta match in Hrun.
  unfold bind at 1 in Hrun.
  rewrite (add_transaction_poor fresh) in Hrun by (rewrite Hzero; lia).
  cbv beta match in Hrun.
  unfold bind at 1 in Hrun.
  rewrite (add_transaction_poor fresh) in Hrun by (rewrite Hzero; lia).
  cbv beta match in Hrun.
  unfold bind at 1 in Hrun.
  destruct (Blockchain.mine_pending_transactions fuel (Some "Miner1")
              (clock 5%nat) (clock 6%nat) fresh) as [[[]|e|] s1] eqn:Hmine1;
    try discriminate Hrun.
  assert (Hvalid1 : Blockchain.first_failure s1 = None).
  { apply (perform_keeps_valid
             (Session.MinePendingTransactions fuel (Some "Miner1")
                (clock 5%nat) (clock 6%nat)) fresh s1 Hvalid0 Hmine1). }
  assert (Hbal1 : forall name,
             Blockchain.scan_balance (Blockchain.chain s1) (Some name)
             = if String.eqb "Miner1" name then 100 else 0).
  { intros name.
    rewrite (mined_balance _ _ _ _ _ _ name Hmine1 eq_refl), Hzero.
    reflexivity. }
  destruct (mine_pending_transactions_returned _ _ _ _ _ _ Hmine1)
    as (b1 & Hs1 & Htx1 & Hsealed1).
  unfold bind at 1 in Hrun. rewrite balances_run in Hrun.
  cbv beta match in Hrun.
  unfold bind at 1 in Hrun.
  rewrite (add_transaction_poor s1) in Hrun
    by (cbn [Transaction.sender Transaction.__init__]; rewrite Hbal1;
        simpl; lia).
  cbv beta match in Hrun.
  unfold bind at 1 in Hrun.
  destruct (Blockchain.mine_pending_transactions fuel (Some "Miner2")
              (clock 8%nat) (clock 9%nat) s1) as [[[]|e|] s2] eqn:Hmine2;
    try discriminate Hrun.
  assert (Hvalid2 : Blockchain.first_failure s2 = None).
  { apply (perform_keeps_valid
             (Session.MinePendingTransactions fuel (Some "Miner2")
                (clock 8%nat) (clock 9%nat)) s1 s2 Hvalid1 Hmine2). }
  assert (Hpool1 : Blockchain.pending_transactions s1 = [])
    by (rewrite Hs1; reflexivity).
  assert (Hreward1 : Blockchain.mining_reward s1 = 100)
    by (rewrite Hs1; reflexivity).
  assert (Hbal2 : forall name,
             Blockchain.scan_balance (Blockchain.chain s2) (Some name)
             = (if String.eqb "Miner1" name then 100 else 0)
               + (if String.eqb "Miner2" name then 100 else 0)).
  { intros name.
    rewrite (mined_balance _ _ _ _ _ _ name Hmine2 Hpool1), Hbal1, Hreward1.
    reflexivity. }
  destruct (mine_pending_transactions_returned _ _ _ _ _ _ Hmine2)
    as (b2 & Hs2 & _ & _).
  unfold bind at 1 in Hrun. rewrite balances_run in Hrun.
  cbv beta match in Hrun.
  unfold bind at 1 in Hrun.
  unfold Blockchain.is_chain_valid at 1, gets at 1 in Hrun.
  rewrite Hvalid2 in Hrun. cbv beta match in Hrun.
  unfold bind at 1 in Hrun.
  set (d1 := Transaction.to_dict
               (Transaction.__init__ None (Some "Miner1") 100 (clock 5%nat)))
    in *.
  assert (Hd : Block.transactions b1 !! 0%nat = Some d1)
    by (rewrite Htx1; reflexivity).
  assert (Hb1 : Blockchain.chain s2 !! 1%nat = Some b1)
    by (rewrite Hs2, Hs1; reflexivity).
  assert (Hlen2 : length (Blockchain.chain s2) = 3%nat)
    by (rewrite Hs2, Hs1; reflexivity).
  assert (Hd2 : Blockchain.difficulty s2 = 2)
    by (rewrite Hs2, Hs1; reflexivity).
  assert (Hpool2 : Blockchain.pending_transactions s2 = [])
    by (rewrite Hs2; reflexivity).
  unfold Tamper.in_chain, Tamper.in_block in Hrun.
  rewrite Hb1, Hd in Hrun. cbv beta match in Hrun.
  set (b1' := Block.set_transactions
                (<[0%nat := Tamper.assign (Tamper.SetAmount 999999) d1]>
                   (Block.transactions b1)) b1) in *.
  set (s3 := Blockchain.set_chain (<[1%nat := b1']> (Blockchain.chain s2)) s2)
    in *.
  unfold Blockchain.get_chain_info, Blockchain.is_chain_valid, bind, gets, ret
    in Hrun.
  injection Hrun as <- <-.
  cbn [Main.initial_info Main.accepted Main.balances_block_1 Main.accepted_4
       Main.final_balances Main.valid Main.final_info
       Main.valid_after_tampering map].
  rewrite !Hbal1, !Hbal2.
  repeat (split; [reflexivity|]).
  split.
  { f_equal.
    - subst s3. cbn [Blockchain.chain Blockchain.set_chain].
      rewrite length_insert. exact Hlen2.
    - exact Hd2.
    - subst s3. cbn [Blockchain.pending_transactions Blockchain.set_chain].
      rewrite Hpool2. reflexivity. }
  destruct (string_dec (Block.hash b1') (Block.calculate_hash b1'))
    as [Hsame|Hstale].
  - right. exists b1. unfold Tamper.in_block. rewrite Hd.
    cbn [snd]. fold b1'. split.
    + subst s3. cbn [Blockchain.chain Blockchain.set_chain].
      apply list_lookup_insert_eq. lia.
    + split.
      * intros Hstr. apply block_string_inj in Hstr as (_ & _ & Htx & _).
        assert (Hnew : Block.transactions b1' !! 0%nat
                       = Some (Tamper.assign (Tamper.SetAmount 999999) d1)).
        { subst b1'. cbn [Block.transactions Block.set_transactions].
          apply list_lookup_insert_eq. eapply lookup_lt_Some. exact Hd. }
        rewrite <- Htx, Hd in Hnew. discriminate Hnew.
      * change (sha256_hexdigest (Block.block_string b1))
          with (Block.calculate_hash b1).
        change (sha256_hexdigest (Block.block_string b1'))
          with (Block.calculate_hash b1').
        rewrite <- Hsealed1, <- Hsame. reflexivity.
  - left. subst s3.
    rewrite (replaced_block_found s2 1 b1' Hvalid2); [reflexivity | lia |].
    exact Hstale.
Qed.

Lemma demo_report_witness :
  fst demo_run
  = Returned
      {| Main.initial_info :=
           {| Blockchain.info_blocks := 1; Blockchain.info_difficulty := 2;
              Blockchain.info_pending_transactions := 0;
              Blockchain.info_is_valid := true |};
         Main.accepted := [false; false; false];
         Main.balances_block_1 := [0; 0; 0; 100];
         Main.accepted_4 := false;
         Main.final_balances := [0; 0; 0; 100; 100];
         Main.valid := true;
         Main.valid_after_tampering := false;
         Main.final_info :=
           {| Blockchain.info_blocks := 3; Blockchain.info_difficulty := 2;
              Blockchain.info_pending_transactions := 0;
              Blockchain.info_is_valid := false |} |}
  /\ Main.accepted_4
       {| Main.initial_info :=
            {| Blockchain.info_blocks := 1; Blockchain.info_difficulty := 2;
               Blockchain.info_pending_transactions := 0;
               Blockchain.info_is_valid := true |};
          Main.accepted := [false; false; false];
          Main.balances_block_1 := [0; 0; 0; 100];
          Main.accepted_4 := false;
          Main.final_balances := [0; 0; 0; 100; 100];
          Main.valid := true;
          Main.valid_after_tampering := false;
          Main.final_info :=
            {| Blockchain.info_blocks := 3; Blockchain.info_difficulty := 2;
               Blockchain.info_pending_transactions := 0;
               Blockchain.info_is_valid := false |} |}
     = false.
Proof.
  assert (Hrun : demo_run
                 = (Returned
                      {| Main.initial_info :=
                           {| Blockchain.info_blocks := 1;
                              Blockchain.info_difficulty := 2;
                              Blockchain.info_pending_transactions := 0;
                              Blockchain.info_is_valid := true |};
                         Main.accepted := [false; false; false];
                         Main.balances_block_1 := [0; 0; 0; 100];
                         Main.accepted_4 := false;
                         Main.final_balances := [0; 0; 0; 100; 100];
                         Main.valid := true;
                         Main.valid_after_tampering := false;
                         Main.final_info :=
                           {| Blockchain.info_blocks := 3;
                              Blockchain.info_difficulty := 2;
                              Blockchain.info_pending_transactions := 0;
                              Blockchain.info_is_valid := false |} |},
                    snd demo_run))
    by (vm_compute; reflexivity).
  split; [rewrite Hrun; reflexivity|].
  exact (proj1 (proj2 (proj2 (proj2
           (demo_report (H := hashlib_sha256) _ _ _ _ Hrun))))).
Defined.

(** ** Indices and the report of [get_chain_info] *)

Section Positions.
Context `{Hashlib}.

Lemma perform_keeps_indices (c : Session.call) (s s' : Blockchain.t) :
  (forall i b, Blockchain.chain s !! i = Some b -> Block.index b = Z.of_nat i) ->
  Session.perform c s = (Returned tt, s') ->
  forall i b, Blockchain.chain s' !! i = Some b -> Block.index b = Z.of_nat i.
Proof.
  intros Hindex Hrun. destruct c as [tx|fuel address t_reward t_block];
    simpl in Hrun.
  - unfold bind in Hrun. rewrite add_transaction_run in Hrun.
    destruct (_ || _); injection Hrun as <-; exact Hindex.
  - destruct (last (Blockchain.chain s)) as [latest|] eqn:Hlast.
    + rewrite (mine_pending_transactions_run _ _ _ _ _ _ Hlast) in Hrun.
      destruct (Block.mine_block _ _ _) as [[n|e|] b0] eqn:Hmine;
        try discriminate Hrun.
      injection Hrun as <-. simpl.
      unfold Block.mine_block in Hmine.
      apply mine_loop_returned in Hmine as (k & _ & _ & -> & _ & _).
      intros i b Hb.
      destruct (Nat.lt_ge_cases i (length (Blockchain.chain s))) as [Hlt|Hge].
      * rewrite lookup_app_l in Hb by exact Hlt. apply Hindex. exact Hb.
      * rewrite lookup_app_r in Hb by exact Hge.
        destruct (i - length (Blockchain.chain s))%nat as [|j] eqn:Hj;
          [|destruct j; discriminate Hb].
        injection Hb as <-.
        destruct (attempt_fields k
                    (Blockchain.new_block s latest address t_reward t_block))
          as (-> & _).
        simpl. lia.
    + apply last_None in Hlast.
      rewrite (mine_pending_transactions_empty _ _ _ _ _ Hlast) in Hrun.
      discriminate.
Qed.

Lemma run_keeps_indices (calls : list Session.call) (s s' : Blockchain.t) :
  (forall i b, Blockchain.chain s !! i = Some b -> Block.index b = Z.of_nat i) ->
  Session.run calls s = (Returned tt, s') ->
  forall i b, Blockchain.chain s' !! i = Some b -> Block.index b = Z.of_nat i.
Proof.
  revert s. induction calls as [|c calls IH]; intros s Hindex Hrun.
  - injection Hrun as <-. exact Hindex.
  - simpl in Hrun. unfold bind in Hrun.
    destruct (Session.perform c s) as [[[]|e|] s1] eqn:Hc;
      try discriminate Hrun.
    exact (IH s1 (perform_keeps_indices c s s1 Hindex Hc) Hrun).
Qed.

(** X21: on every chain obtained from [Blockchain(difficulty)] by calls of
    [add_transaction] and [mine_pending_transactions] that have all
    returned, the [index] of a block is its position in the chain, and
    [get_latest_block] returns, without raising, the block at the last
    position. *)
Theorem session_indices (difficulty t_record t_block : Z)
    (calls : list Session.call) (s : Blockchain.t) :
  Session.run calls (Blockchain.__init__ difficulty t_record t_block)
  = (Returned tt, s) ->
  (forall i b, Blockchain.chain s !! i = Some b -> Block.index b = Z.of_nat i)
  /\ exists latest,
       Blockchain.get_latest_block s = (Returned latest, s)
       /\ Block.index latest = Z.of_nat (Session.mined_blocks calls).
Proof.
  intros Hrun.
  assert (Hindex : forall i b, Blockchain.chain s !! i = Some b ->
                               Block.index b = Z.of_nat i).
  { apply (run_keeps_indices calls
             (Blockchain.__init__ difficulty t_record t_block) s);
      [|exact Hrun].
    intros [|i] b Hb; [injection Hb as <-; reflexivity | discriminate Hb]. }
  split; [exact Hindex|].
  apply run_keeps_valid in Hrun as (_ & _ & Hlen); [|reflexivity].
  simpl in Hlen.
  unfold Blockchain.get_latest_block.
  destruct (last (Blockchain.chain s)) as [latest|] eqn:Hlast.
  - exists latest. split; [reflexivity|].
    rewrite last_lookup, Hlen in Hlast. simpl in Hlast.
    apply Hindex. exact Hlast.
  - apply last_None in Hlast. rewrite Hlast in Hlen. discriminate Hlen.
Qed.

(** X22: on such a chain [get_chain_info] reports one block more than there
    were calls of [mine_pending_transactions], the difficulty the chain was
    built with, the size of the pending pool, and that the chain is valid;
    it leaves the chain object as it was. *)
Theorem session_chain_info (difficulty t_record t_block : Z)
    (calls : list Session.call) (s : Blockchain.t) :
  Session.run calls (Blockchain.__init__ difficulty t_record t_block)
  = (Returned tt, s) ->
  Blockchain.get_chain_info s
  = (Returned
       {| Blockchain.info_blocks := S (Session.mined_blocks calls);
          Blockchain.info_difficulty := difficulty;
          Blockchain.info_pending_transactions :=
            length (Blockchain.pending_transactions s);
          Blockchain.info_is_valid := true |}, s).
Proof.
  intros Hrun.
  apply run_keeps_valid in Hrun as (Hvalid & Hd & Hlen); [|reflexivity].
  unfold Blockchain.get_chain_info, Blockchain.is_chain_valid, bind, gets, ret.
  rewrite Hvalid, Hlen. simpl in Hd. rewrite Hd. reflexivity.
Qed.

End Positions.

Lemma session_run_demo :
  Session.run (H := hashlib_sha256)
    [Session.AddTransaction Demo.tx1;
     Session.MinePendingTransactions 64 (Some "Miner1") 1700000003 1700000004]
    (Blockchain.__init__ (H := hashlib_sha256) 1 1700000000 1700000001)
  = (Returned tt, snd Demo.mined).
Proof. vm_compute. reflexivity. Qed.

Lemma session_indices_witness :
  exists latest,
    Blockchain.get_latest_block (snd Demo.mined)
    = (Returned latest, snd Demo.mined)
    /\ Block.index latest = Z.of_nat 1.
Proof.
  exact (proj2 (session_indices (H := hashlib_sha256) _ _ _ _ _
                  session_run_demo)).
Defined.

Lemma session_chain_info_witness :
  Blockchain.get_chain_info (H := hashlib_sha256) (snd Demo.mined)
  = (Returned
       {| Blockchain.info_blocks := 2; Blockchain.info_difficulty := 1;
          Blockchain.info_pending_transactions :=
            length (Blockchain.pending_transactions (snd Demo.mined));
          Blockchain.info_is_valid := true |}, snd Demo.mined).
Proof.
  exact (session_chain_info (H := hashlib_sha256) _ _ _ _ _ session_run_demo).
Defined.
